(** * The EFS volume driver of docker-volume-netshare

    A shallow embedding of [netshare/drivers/efs.go]: the driver's
    constructor, its [Mount] and [Unmount] operations and the source
    resolver [fixSource], together with the properties of the mount
    life cycle that the specification states about them.

    Go strings are byte strings and are modelled by [string]; Go's [int]
    reference count is a [Z]; a Go [error] is an [option string] ([None] is
    [nil], [Some msg] an error whose [Error()] text is [msg]).  The driver
    is passed by value, but its [mountm] pointer and its [dnscache] map
    designate objects shared by every copy: they live in a [Store] that is
    threaded through the operations.  Calls for logging are left out. *)

From Stdlib Require Import ZArith Lia Ascii.
From Stdlib Require String.
From stdpp Require Import base option list gmap strings.

Local Open Scope Z_scope.

(** ** Strings: [strings.Split], [strings.Join], [fmt.Sprintf] *)

Module Strings.

(** [strings.Split(s, sep)] for a separator of one byte, the only one the
    driver uses: the pieces of [s] between the occurrences of [sep]. *)
Fixpoint Split (s : string) (sep : ascii) : list string :=
  match s with
  | EmptyString => [EmptyString]
  | String c s' =>
      if Ascii.eqb c sep then EmptyString :: Split s' sep
      else match Split s' sep with
           | [] => [String c EmptyString]
           | w :: ws => String c w :: ws
           end
  end.

(** [strings.Join(elems, sep)]. *)
Fixpoint Join (elems : list string) (sep : string) : string :=
  match elems with
  | [] => EmptyString
  | [w] => w
  | w :: ws => w +:+ sep +:+ Join ws sep
  end.

(** [s] holds no byte [c]. *)
Fixpoint free_of (c : ascii) (s : string) : bool :=
  match s with
  | EmptyString => true
  | String x s' => negb (Ascii.eqb x c) && free_of c s'
  end.

End Strings.

Import Strings.

Definition slash : ascii := "/"%char.

(** ** The plugin envelope ([dkvolume.Request], [dkvolume.Response]) *)

Record Request := { Name : string }.

Record Response := { Mountpoint : string; Err : string }.

(** [dkvolume.Response{}] *)
Definition Response_empty : Response := {| Mountpoint := ""; Err := "" |}.
(** [dkvolume.Response{Mountpoint: dest}] *)
Definition Response_mountpoint (dest : string) : Response :=
  {| Mountpoint := dest; Err := "" |}.
(** [dkvolume.Response{Err: msg}] *)
Definition Response_err (msg : string) : Response :=
  {| Mountpoint := ""; Err := msg |}.

(** ** The mount registry ([mountManager]) *)

Record MountRecord := { volumeName : string; refCount : Z }.

Module Registry.

(** Modelled from the spec: the [mountManager] type and its methods
    [NewVolumeManager], [HasMount], [Count], [Add], [Increment] and
    [Decrement] are used by [efs.go] but defined elsewhere in the package.
    The registry is a table from mountpoint to a record of the volume name
    and a reference count (section 4.1 of the specification); the count is
    the specification's integer, without a machine bound. *)
Definition NewVolumeManager : gmap string MountRecord := ∅.

(** Modelled from the spec: [HasMount] is true iff a record exists for the
    mountpoint, regardless of its count. *)
Definition HasMount (mm : gmap string MountRecord) (mp : string) : bool :=
  bool_decide (is_Some (mm !! mp)).

(** Modelled from the spec: [Count] is the current count, and 0 if no record
    exists. *)
Definition Count (mm : gmap string MountRecord) (mp : string) : Z :=
  match mm !! mp with
  | Some rec => refCount rec
  | None => 0
  end.

(** Modelled from the spec: [Add] creates a record with count 1; on an
    existing record it overwrites the volume name and resets the count to 1
    (the behaviour the specification recommends). *)
Definition Add (mm : gmap string MountRecord) (mp name : string)
  : gmap string MountRecord :=
  <[mp := {| volumeName := name; refCount := 1 |}]> mm.

(** Modelled from the spec: [Increment] adds one to the count; no-op if the
    record is absent. *)
Definition Increment (mm : gmap string MountRecord) (mp : string)
  : gmap string MountRecord :=
  alter (fun rec => {| volumeName := volumeName rec;
                       refCount := refCount rec + 1 |}) mp mm.

(** Modelled from the spec: [Decrement] takes one from the count, floored at
    0; no-op if the record is absent. *)
Definition Decrement (mm : gmap string MountRecord) (mp : string)
  : gmap string MountRecord :=
  alter (fun rec => {| volumeName := volumeName rec;
                       refCount := Z.max 0 (refCount rec - 1) |}) mp mm.

End Registry.

Import Registry.

(** ** The collaborators and the store *)

(** The calls the driver makes to the operating system and the network. *)
Inductive Call :=
| CallFetchAWSMetaData
| CallLookupHost (host : string)
| CallCreateDest (dest : string)
| CallMountVolume (source dest : string) (version : Z)
| CallRun (cmd : string)
| CallRemoveAll (path : string).

(** The value of [fetchAWSMetaData()], of which the constructor reads the
    fields [Region] and [AvailZone]. *)
Record AWSMetaData := { Region : string; AvailZone : string }.

(** The package helpers [mountpoint], [createDest], [mountVolume], [run] and
    [fetchAWSMetaData] are defined outside [efs.go]; [net.LookupHost] and
    [os.RemoveAll] belong to Go's library.  They are parameters of the
    model.  What a call returns may depend on every call made before it
    (newest first); [inr msg] and [Some msg] are errors. *)
Record Collaborators := {
  mountpoint : string -> string -> string;
  fetchAWSMetaData : list Call -> AWSMetaData + string;
  LookupHost : list Call -> string -> list string + string;
  createDest : list Call -> string -> option string;
  mountVolume : list Call -> string -> string -> Z -> option string;
  run : list Call -> string -> option string;
  RemoveAll : list Call -> string -> option string
}.

(** The objects shared by all copies of a driver value: the registry behind
    the [mountm] pointer, the [dnscache] map, and the calls made so far. *)
Record Store := {
  mountm : gmap string MountRecord;
  dnscache : gmap string string;
  calls : list Call
}.

Definition set_mountm (mm : gmap string MountRecord) (st : Store) : Store :=
  {| mountm := mm; dnscache := dnscache st; calls := calls st |}.
Definition set_dnscache (c : gmap string string) (st : Store) : Store :=
  {| mountm := mountm st; dnscache := c; calls := calls st |}.
Definition record_call (c : Call) (st : Store) : Store :=
  {| mountm := mountm st; dnscache := dnscache st; calls := c :: calls st |}.

(** The value fields of [efsDriver]. *)
Record efsDriver := {
  root : string;
  availzone : string;
  resolve : bool;
  region : string
}.

(** ** A state monad with panics

    A computation reads and updates the store; [None] is a Go run-time
    panic (an index out of range). *)
Definition M (A : Type) : Type := Store -> option (A * Store).

Definition ret {A} (a : A) : M A := fun st => Some (a, st).
Definition bind {A B} (m : M A) (k : A -> M B) : M B :=
  fun st => match m st with
            | Some (a, st') => k a st'
            | None => None
            end.
Definition panic {A} : M A := fun _ => None.
Definition gets {A} (f : Store -> A) : M A := fun st => Some (f st, st).
Definition modify (f : Store -> Store) : M unit := fun st => Some (tt, f st).

Declare Scope drv_scope.
Delimit Scope drv_scope with drv.
Notation "'let*' x ':=' c 'in' k" := (bind c (fun x => k))
  (at level 10, x name, c at level 100, k at level 200) : drv_scope.
Notation "c1 '>>' c2" := (bind c1 (fun _ => c2))
  (at level 100, c2 at level 200, right associativity) : drv_scope.

(** [xs[i]]: a panic when [i] is out of range. *)
Definition index {A} (xs : list A) (i : nat) : M A :=
  match xs !! i with
  | Some x => ret x
  | None => panic
  end.

(** [EfsTemplateURI = "%s.%s.efs.%s.amazonaws.com"], through [fmt.Sprintf]. *)
Definition Sprintf_EfsTemplateURI (a b c : string) : string :=
  a +:+ "." +:+ b +:+ ".efs." +:+ c +:+ ".amazonaws.com".

(** [fmt.Sprintf("umount %s", dest)] *)
Definition Sprintf_umount (dest : string) : string := "umount " +:+ dest.

Definition mountSuffix (uri : string) : string := uri +:+ ":/".

Section Driver.

Variable os : Collaborators.

Local Open Scope drv_scope.

Definition call_LookupHost (host : string) : M (list string + string) :=
  fun st => Some (LookupHost os (calls st) host,
                  record_call (CallLookupHost host) st).
Definition call_createDest (dest : string) : M (option string) :=
  fun st => Some (createDest os (calls st) dest,
                  record_call (CallCreateDest dest) st).
Definition call_mountVolume (source dest : string) (version : Z)
  : M (option string) :=
  fun st => Some (mountVolume os (calls st) source dest version,
                  record_call (CallMountVolume source dest version) st).
Definition call_run (cmd : string) : M (option string) :=
  fun st => Some (run os (calls st) cmd, record_call (CallRun cmd) st).
Definition call_RemoveAll (path : string) : M (option string) :=
  fun st => Some (RemoveAll os (calls st) path,
                  record_call (CallRemoveAll path) st).

(** [NewEFSDriver]: the fresh driver and the store of its new registry and
    cache, after the calls of [history]; [None] when [log.Fatalf] ends the
    process. *)
Definition NewEFSDriver (root0 az : string) (resolve0 : bool)
    (history : list Call) : option (efsDriver * Store) :=
  let st := {| mountm := NewVolumeManager; dnscache := ∅;
               calls := CallFetchAWSMetaData :: history |} in
  match fetchAWSMetaData os history with
  | inr _ => None
  | inl md =>
      let d := {| root := root0; availzone := ""; resolve := resolve0;
                  region := Region md |} in
      let d := if String.eqb az ""
               then {| root := root d; availzone := AvailZone md;
                       resolve := resolve d; region := region d |}
               else d in
      Some (d, st)
  end.

Definition fixSource (e : efsDriver) (name : string) : M string :=
  let v := Split name slash in
  if resolve e then
    let* v0 := index v 0 in
    let uri := Sprintf_EfsTemplateURI (availzone e) v0 (region e) in
    let* cache := gets dnscache in
    match cache !! uri with
    | Some i => ret (mountSuffix i)
    | None =>
        let* res := call_LookupHost uri in
        match res with
        | inl ips =>
            let* ip0 := index ips 0 in
            modify (fun st => set_dnscache (<[uri := ip0]> (dnscache st)) st) >>
            ret (mountSuffix ip0)
        | inr _ => ret (mountSuffix uri)
        end
    end
  else
    let* v0 := index v 0 in
    ret (Join (<[0%nat := v0 +:+ ":"]> v) "/").

Definition Mount (e : efsDriver) (r : Request) : M Response :=
  let dest := mountpoint os (root e) (Name r) in
  let* source := fixSource e (Name r) in
  let* mm := gets mountm in
  if HasMount mm dest && (0 <? Count mm dest) then
    modify (fun st => set_mountm (Increment (mountm st) dest) st) >>
    ret (Response_mountpoint dest)
  else
    let* err := call_createDest dest in
    match err with
    | Some msg => ret (Response_err msg)
    | None =>
        let* err := call_mountVolume source dest 4 in
        match err with
        | Some msg => ret (Response_err msg)
        | None =>
            modify (fun st => set_mountm (Add (mountm st) dest (Name r)) st) >>
            ret (Response_mountpoint dest)
        end
    end.

(** The last statements of [Unmount]: the physical unmount of [dest], then
    the removal of its directory. *)
Definition unmount_and_remove (dest : string) : M Response :=
  let* err := call_run (Sprintf_umount dest) in
  match err with
  | Some msg => ret (Response_err msg)
  | None =>
      let* err := call_RemoveAll dest in
      match err with
      | Some msg => ret (Response_err msg)
      | None => ret Response_empty
      end
  end.

Definition Unmount (e : efsDriver) (r : Request) : M Response :=
  let dest := mountpoint os (root e) (Name r) in
  let* source := fixSource e (Name r) in
  let* mm := gets mountm in
  if HasMount mm dest then
    if 1 <? Count mm dest then
      modify (fun st => set_mountm (Decrement (mountm st) dest) st) >>
      ret Response_empty
    else
      modify (fun st => set_mountm (Decrement (mountm st) dest) st) >>
      unmount_and_remove dest
  else unmount_and_remove dest.

End Driver.

(** ** Serialised executions

    [Mount] and [Unmount] hold the driver's mutex from their first to their
    last statement, so concurrent invocations run one whole body at a time,
    in the order in which their goroutines take the lock. *)

Inductive Op := OpMount | OpUnmount.

Record Invocation := { goroutine : nat; op : Op; request : Request }.

Definition serve (os : Collaborators) (e : efsDriver) (i : Invocation)
  : M Response :=
  match op i with
  | OpMount => Mount os e (request i)
  | OpUnmount => Unmount os e (request i)
  end.

Fixpoint serve_all (os : Collaborators) (e : efsDriver)
    (sched : list Invocation) : M (list Response) :=
  match sched with
  | [] => ret []
  | i :: sched' =>
      bind (serve os e i) (fun resp =>
      bind (serve_all os e sched') (fun resps => ret (resp :: resps)))
  end.

(** [n] invocations of [o] on [r], one per goroutine [first], [first+1], ... *)
Fixpoint concurrent_calls (o : Op) (r : Request) (first n : nat)
  : list Invocation :=
  match n with
  | O => []
  | S n' => {| goroutine := first; op := o; request := r |}
            :: concurrent_calls o r (S first) n'
  end.

(** The orders in which [n] concurrent [Mount] calls on [r] followed by [n]
    [Unmount] calls on [r] can take the lock. *)
Definition mounts_then_unmounts (r : Request) (n : nat)
    (sched : list Invocation) : Prop :=
  exists ms us, sched = ms ++ us
    /\ Permutation ms (concurrent_calls OpMount r 0 n)
    /\ Permutation us (concurrent_calls OpUnmount r n n).

(** ** Observing the calls *)

Definition is_physical (c : Call) : bool :=
  match c with
  | CallLookupHost _ | CallFetchAWSMetaData => false
  | _ => true
  end.

Definition is_mount (c : Call) : bool :=
  match c with CallMountVolume _ _ _ => true | _ => false end.

Definition is_umount (c : Call) : bool :=
  match c with CallRun _ => true | _ => false end.

(** The calls of [cs] that touch the file system or the mount table. *)
Fixpoint physical (cs : list Call) : list Call :=
  match cs with
  | [] => []
  | c :: cs' => if is_physical c then c :: physical cs' else physical cs'
  end.

Fixpoint count (p : Call -> bool) (cs : list Call) : nat :=
  match cs with
  | [] => O
  | c :: cs' => if p c then S (count p cs') else count p cs'
  end.

(** [net.LookupHost] never returns an empty list of addresses without an
    error. *)
Definition lookup_sane (os : Collaborators) : Prop :=
  forall h host, LookupHost os h host <> inl [].

(** Directory creation and the physical mount always succeed. *)
Definition mount_reliable (os : Collaborators) : Prop :=
  (forall h d, createDest os h d = None)
  /\ (forall h s d v, mountVolume os h s d v = None).

(** The physical unmount and the removal of the directory always succeed. *)
Definition unmount_reliable (os : Collaborators) : Prop :=
  (forall h c, run os h c = None) /\ (forall h p, RemoveAll os h p = None).

(** The property of serialised executions in the words of the
    specification: however [n] concurrent [Mount] calls on [r] followed by
    [n] [Unmount] calls take the lock on a new driver, exactly one physical
    mount and exactly one physical unmount are called, and the mountpoint is
    left without record or with a count of zero. *)
Definition exactly_once (os : Collaborators) (e : efsDriver) (r : Request)
    (n : nat) : Prop :=
  forall sched, mounts_then_unmounts r n sched ->
    exists resps st',
      serve_all os e sched
        {| mountm := NewVolumeManager; dnscache := ∅; calls := [] |}
      = Some (resps, st')
      /\ count is_mount (calls st') = 1%nat
      /\ count is_umount (calls st') = 1%nat
      /\ Count (mountm st') (mountpoint os (root e) (Name r)) = 0.

(** ** Sample collaborators *)

Module Sample.

Definition join_path (root0 name : string) : string := root0 +:+ "/" +:+ name.

Definition metadata : AWSMetaData :=
  {| Region := "us-east-1"; AvailZone := "az1" |}.

(** Every call succeeds; every host resolves to 10.0.0.5. *)
Definition os_up : Collaborators := {|
  mountpoint := join_path;
  fetchAWSMetaData := fun _ => inl metadata;
  LookupHost := fun _ _ => inl ["10.0.0.5"];
  createDest := fun _ _ => None;
  mountVolume := fun _ _ _ _ => None;
  run := fun _ _ => None;
  RemoveAll := fun _ _ => None |}.

(** No host resolves; everything else succeeds. *)
Definition os_nodns : Collaborators := {|
  mountpoint := join_path;
  fetchAWSMetaData := fun _ => inl metadata;
  LookupHost := fun _ _ => inr "no such host";
  createDest := fun _ _ => None;
  mountVolume := fun _ _ _ _ => None;
  run := fun _ _ => None;
  RemoveAll := fun _ _ => None |}.

(** The first physical mount fails, the later ones succeed. *)
Definition os_flaky : Collaborators := {|
  mountpoint := join_path;
  fetchAWSMetaData := fun _ => inl metadata;
  LookupHost := fun _ _ => inl ["10.0.0.5"];
  createDest := fun _ _ => None;
  mountVolume := fun h _ _ _ =>
    match count is_mount h with
    | O => Some "exit status 32"
    | S _ => None
    end;
  run := fun _ _ => None;
  RemoveAll := fun _ _ => None |}.

(** Nothing can be unmounted or removed. *)
Definition os_busy : Collaborators := {|
  mountpoint := join_path;
  fetchAWSMetaData := fun _ => inl metadata;
  LookupHost := fun _ _ => inl ["10.0.0.5"];
  createDest := fun _ _ => Some "mkdir: permission denied";
  mountVolume := fun _ _ _ _ => Some "exit status 32";
  run := fun _ _ => Some "exit status 16";
  RemoveAll := fun _ _ => Some "device or resource busy" |}.

Definition resolving : efsDriver :=
  {| root := "/mnt"; availzone := "az1"; resolve := true;
     region := "us-east-1" |}.

Definition literal : efsDriver :=
  {| root := "/mnt"; availzone := "az1"; resolve := false;
     region := "us-east-1" |}.

Definition fresh : Store := {| mountm := ∅; dnscache := ∅; calls := [] |}.

(** A store in which [mp] is registered for [name] with count [c]. *)
Definition shared (mp name : string) (c : Z) : Store :=
  {| mountm := {[ mp := {| volumeName := name; refCount := c |} ]};
     dnscache := ∅; calls := [] |}.

End Sample.

(** ** The other plugin methods

    [Create], [Remove] and [Path] do not take the driver's lock; they read
    nothing but the immutable [root] of the driver. *)

Section Envelope.

Variable os : Collaborators.

Definition Create (e : efsDriver) (r : Request) : M Response :=
  ret Response_empty.

Definition Remove (e : efsDriver) (r : Request) : M Response :=
  ret Response_empty.

Definition Path (e : efsDriver) (r : Request) : M Response :=
  ret (Response_mountpoint (mountpoint os (root e) (Name r))).

End Envelope.

(** The five requests of the plugin protocol, as the handler passes them to
    the driver's methods. *)
Inductive Method :=
| MethodCreate | MethodRemove | MethodPath | MethodMount | MethodUnmount.

Record PluginRequest := { method : Method; body : Request }.

Definition handle (os : Collaborators) (e : efsDriver) (q : PluginRequest)
  : M Response :=
  match method q with
  | MethodCreate => Create e (body q)
  | MethodRemove => Remove e (body q)
  | MethodPath => Path os e (body q)
  | MethodMount => Mount os e (body q)
  | MethodUnmount => Unmount os e (body q)
  end.

Fixpoint handle_all (os : Collaborators) (e : efsDriver)
    (qs : list PluginRequest) : M (list Response) :=
  match qs with
  | [] => ret []
  | q :: qs' =>
      bind (handle os e q) (fun resp =>
      bind (handle_all os e qs') (fun resps => ret (resp :: resps)))
  end.

(** The requests that reach [Mount] or [Unmount]. *)
Definition changes_mounts (q : PluginRequest) : bool :=
  match method q with
  | MethodMount | MethodUnmount => true
  | _ => false
  end.

Definition is_lookup (c : Call) : bool :=
  match c with CallLookupHost _ => true | _ => false end.

(** [name] with a colon put before its first slash, or at its end when it
    has none. *)
Fixpoint colon_before_slash (name : string) : string :=
  match name with
  | EmptyString => ":"
  | String c s =>
      if Ascii.eqb c slash then String ":" name
      else String c (colon_before_slash s)
  end.

(** A resolver that fails on the first lookup and answers from the second
    on; everything else succeeds. *)
Definition os_slow_dns : Collaborators := {|
  mountpoint := Sample.join_path;
  fetchAWSMetaData := fun _ => inl Sample.metadata;
  LookupHost := fun h _ =>
    match count is_lookup h with
    | O => inr "no such host"
    | S _ => inl ["10.0.0.7"; "10.0.0.8"]
    end;
  createDest := fun _ _ => None;
  mountVolume := fun _ _ _ _ => None;
  run := fun _ _ => None;
  RemoveAll := fun _ _ => None |}.

(** The physical unmount always fails; everything else succeeds. *)
Definition os_stuck : Collaborators := {|
  mountpoint := Sample.join_path;
  fetchAWSMetaData := fun _ => inl Sample.metadata;
  LookupHost := fun _ _ => inl ["10.0.0.5"];
  createDest := fun _ _ => None;
  mountVolume := fun _ _ _ _ => None;
  run := fun _ _ => Some "exit status 16";
  RemoveAll := fun _ _ => None |}.

(** * Properties *)

(** ** Splitting and joining *)

Section SplitJoin.

Variable sep : ascii.

Lemma Split_not_nil (s : string) : Split s sep <> [].
Proof.
  induction s as [|c s IH]; simpl; [discriminate|].
  destruct (Ascii.eqb c sep); [discriminate|].
  destruct (Split s sep); discriminate.
Qed.

Lemma Split_head (s : string) : exists v0 segs, Split s sep = v0 :: segs.
Proof.
  destruct (Split s sep) as [|v0 segs] eqn:E.
  - now apply Split_not_nil in E.
  - now exists v0, segs.
Qed.

(** A string without separator is its own single piece. *)
Lemma Split_free (s : string) : free_of sep s = true -> Split s sep = [s].
Proof.
  induction s as [|c s IH]; simpl; [reflexivity|].
  intros [Hc Hs]%andb_prop.
  apply negb_true_iff in Hc. rewrite Hc, (IH Hs). reflexivity.
Qed.

(** The first piece ends at the first separator. *)
Lemma Split_first (host rest : string) :
  free_of sep host = true ->
  Split (host +:+ String sep rest) sep = host :: Split rest sep.
Proof.
  induction host as [|c host IH]; simpl.
  - intros _. now rewrite Ascii.eqb_refl.
  - intros [Hc Hs]%andb_prop.
    apply negb_true_iff in Hc. rewrite Hc, (IH Hs). reflexivity.
Qed.

(** Joining the pieces with the separator gives the string back. *)
Lemma Join_Split (s : string) : Join (Split s sep) (String sep "") = s.
Proof.
  induction s as [|c s IH]; simpl; [reflexivity|].
  destruct (Ascii.eqb_spec c sep) as [->|_].
  - destruct (Split s sep) as [|w ws] eqn:E; [now apply Split_not_nil in E|].
    simpl in *. now rewrite IH.
  - destruct (Split s sep) as [|w ws] eqn:E; [now apply Split_not_nil in E|].
    destruct ws as [|w' ws]; simpl in *; now rewrite <- IH.
Qed.

End SplitJoin.

Example Split_volume_name :
  Split "vol1/sub/path" slash = ["vol1"; "sub"; "path"].
Proof. reflexivity. Qed.

Example Split_empty_pieces : Split "/a//" slash = [""; "a"; ""; ""].
Proof. reflexivity. Qed.

Example Split_empty_string : Split "" slash = [""].
Proof. reflexivity. Qed.

Lemma append_assoc (a b c : string) : (a +:+ b) +:+ c = a +:+ (b +:+ c).
Proof.
  induction a as [|x a IH]; [reflexivity|].
  change (String x ((a +:+ b) +:+ c) = String x (a +:+ b +:+ c)).
  now rewrite IH.
Qed.

(** ** Source resolution *)

Section FixSource.

Variable os : Collaborators.
Variable e : efsDriver.

(** In non-resolving mode the first segment, a colon, and the other segments
    joined by slashes; the store is left as it was. *)
Lemma fixSource_literal (name v0 : string) (segs : list string) (st : Store) :
  resolve e = false ->
  Split name slash = v0 :: segs ->
  fixSource os e name st = Some (Join ((v0 +:+ ":") :: segs) "/", st).
Proof.
  intros Hr Hs. unfold fixSource. rewrite Hr, Hs. reflexivity.
Qed.

(** In resolving mode a cached address is used as it is: no call is made. *)
Lemma fixSource_cached (name v0 i : string) (segs : list string) (st : Store) :
  resolve e = true ->
  Split name slash = v0 :: segs ->
  dnscache st !! Sprintf_EfsTemplateURI (availzone e) v0 (region e) = Some i ->
  fixSource os e name st = Some (mountSuffix i, st).
Proof.
  intros Hr Hs Hc. unfold fixSource, bind, gets. rewrite Hr, Hs. simpl.
  rewrite Hc. reflexivity.
Qed.

(** On a miss the host is looked up; the first address is cached and used. *)
Lemma fixSource_resolved (name v0 ip : string) (segs more : list string)
    (st : Store) :
  resolve e = true ->
  Split name slash = v0 :: segs ->
  dnscache st !! Sprintf_EfsTemplateURI (availzone e) v0 (region e) = None ->
  LookupHost os (calls st) (Sprintf_EfsTemplateURI (availzone e) v0 (region e))
    = inl (ip :: more) ->
  fixSource os e name st =
    Some (mountSuffix ip,
          {| mountm := mountm st;
             dnscache := <[Sprintf_EfsTemplateURI (availzone e) v0 (region e)
                           := ip]> (dnscache st);
             calls := CallLookupHost
                        (Sprintf_EfsTemplateURI (availzone e) v0 (region e))
                      :: calls st |}).
Proof.
  intros Hr Hs Hc Hl.
  unfold fixSource, bind, gets, call_LookupHost. rewrite Hr, Hs. simpl.
  rewrite Hc, Hl. reflexivity.
Qed.

(** When the lookup fails the host name itself is used; nothing is cached. *)
Lemma fixSource_unresolved (name v0 msg : string) (segs : list string)
    (st : Store) :
  resolve e = true ->
  Split name slash = v0 :: segs ->
  dnscache st !! Sprintf_EfsTemplateURI (availzone e) v0 (region e) = None ->
  LookupHost os (calls st) (Sprintf_EfsTemplateURI (availzone e) v0 (region e))
    = inr msg ->
  fixSource os e name st =
    Some (mountSuffix (Sprintf_EfsTemplateURI (availzone e) v0 (region e)),
          record_call
            (CallLookupHost (Sprintf_EfsTemplateURI (availzone e) v0 (region e)))
            st).
Proof.
  intros Hr Hs Hc Hl.
  unfold fixSource, bind, gets, call_LookupHost. rewrite Hr, Hs. simpl.
  rewrite Hc, Hl. reflexivity.
Qed.

(** Source resolution leaves the registry alone and makes at most one call,
    a host lookup. *)
Lemma fixSource_calls (name src : string) (st st1 : Store) :
  fixSource os e name st = Some (src, st1) ->
  mountm st1 = mountm st
  /\ (calls st1 = calls st
      \/ exists host, calls st1 = CallLookupHost host :: calls st).
Proof.
  unfold fixSource, bind, gets, call_LookupHost, index, modify, ret, panic.
  destruct (Split_head slash name) as (v0 & segs & ->). simpl.
  destruct (resolve e).
  - destruct (dnscache st !! _) as [i|].
    + intros [= _ <-]. auto.
    + destruct (LookupHost os (calls st) _) as [[|ip more]|msg]; simpl.
      * discriminate.
      * intros [= _ <-]. simpl. eauto.
      * intros [= _ <-]. simpl. eauto.
  - intros [= _ <-]. auto.
Qed.

(** With a well-behaved resolver, source resolution does not panic. *)
Lemma fixSource_total (name : string) (st : Store) :
  lookup_sane os ->
  exists src st1, fixSource os e name st = Some (src, st1).
Proof.
  intros Hsane.
  unfold fixSource, bind, gets, call_LookupHost, index, modify, ret, panic.
  destruct (Split_head slash name) as (v0 & segs & ->). simpl.
  destruct (resolve e); [|eauto].
  destruct (dnscache st !! _) as [i|]; [eauto|].
  destruct (LookupHost os (calls st) _) as [[|ip more]|msg] eqn:E; simpl;
    [|eauto|eauto].
  now apply Hsane in E.
Qed.

End FixSource.

(** ** The bodies of [Mount] and [Unmount] after source resolution *)

Section Bodies.

Variable os : Collaborators.
Variable e : efsDriver.
Variable r : Request.

Lemma Mount_reuse (src : string) (st st1 : Store) :
  fixSource os e (Name r) st = Some (src, st1) ->
  HasMount (mountm st) (mountpoint os (root e) (Name r)) = true ->
  0 < Count (mountm st) (mountpoint os (root e) (Name r)) ->
  Mount os e r st =
    Some (Response_mountpoint (mountpoint os (root e) (Name r)),
          set_mountm
            (Increment (mountm st) (mountpoint os (root e) (Name r))) st1).
Proof.
  intros Hf Hh Hc. destruct (fixSource_calls _ _ _ _ _ _ Hf) as [Hm _].
  apply Z.ltb_lt in Hc.
  unfold Mount, bind, gets, modify, ret. rewrite Hf, Hm, Hh, Hc. simpl.
  now rewrite Hm.
Qed.

Lemma Mount_fresh (src : string) (st st1 : Store) :
  fixSource os e (Name r) st = Some (src, st1) ->
  HasMount (mountm st) (mountpoint os (root e) (Name r))
    && (0 <? Count (mountm st) (mountpoint os (root e) (Name r))) = false ->
  Mount os e r st =
    match createDest os (calls st1) (mountpoint os (root e) (Name r)) with
    | Some msg =>
        Some (Response_err msg,
              record_call (CallCreateDest (mountpoint os (root e) (Name r))) st1)
    | None =>
        match mountVolume os
                (CallCreateDest (mountpoint os (root e) (Name r)) :: calls st1)
                src (mountpoint os (root e) (Name r)) 4 with
        | Some msg =>
            Some (Response_err msg,
                  record_call
                    (CallMountVolume src (mountpoint os (root e) (Name r)) 4)
                    (record_call
                       (CallCreateDest (mountpoint os (root e) (Name r))) st1))
        | None =>
            Some (Response_mountpoint (mountpoint os (root e) (Name r)),
                  set_mountm
                    (Add (mountm st) (mountpoint os (root e) (Name r)) (Name r))
                    (record_call
                       (CallMountVolume src (mountpoint os (root e) (Name r)) 4)
                       (record_call
                          (CallCreateDest (mountpoint os (root e) (Name r)))
                          st1)))
        end
    end.
Proof.
  intros Hf Hno. destruct (fixSource_calls _ _ _ _ _ _ Hf) as [Hm _].
  unfold Mount, bind, gets, modify, ret, call_createDest, call_mountVolume.
  rewrite Hf, Hm, Hno.
  destruct (createDest os (calls st1) _); [reflexivity|]. simpl.
  destruct (mountVolume os _ _ _ _); [reflexivity|]. simpl.
  unfold set_mountm. simpl. now rewrite Hm.
Qed.

Lemma Unmount_shared (src : string) (st st1 : Store) :
  fixSource os e (Name r) st = Some (src, st1) ->
  1 < Count (mountm st) (mountpoint os (root e) (Name r)) ->
  Unmount os e r st =
    Some (Response_empty,
          set_mountm
            (Decrement (mountm st) (mountpoint os (root e) (Name r))) st1).
Proof.
  intros Hf Hc. destruct (fixSource_calls _ _ _ _ _ _ Hf) as [Hm _].
  assert (Hh : HasMount (mountm st) (mountpoint os (root e) (Name r)) = true).
  { unfold HasMount, Count in *.
    destruct (mountm st !! _); [now apply bool_decide_eq_true|lia]. }
  apply Z.ltb_lt in Hc.
  unfold Unmount, bind, gets, modify, ret. rewrite Hf, Hm, Hh, Hc. simpl.
  now rewrite Hm.
Qed.

Lemma Unmount_last (src : string) (st st1 : Store) :
  fixSource os e (Name r) st = Some (src, st1) ->
  HasMount (mountm st) (mountpoint os (root e) (Name r)) = true ->
  Count (mountm st) (mountpoint os (root e) (Name r)) <= 1 ->
  Unmount os e r st =
    unmount_and_remove os (mountpoint os (root e) (Name r))
      (set_mountm (Decrement (mountm st) (mountpoint os (root e) (Name r))) st1).
Proof.
  intros Hf Hh Hc. destruct (fixSource_calls _ _ _ _ _ _ Hf) as [Hm _].
  apply Z.ltb_ge in Hc.
  unfold Unmount, bind, gets, modify, ret.
  rewrite Hf, Hm, Hh, Hc. simpl. now rewrite Hm.
Qed.

Lemma Unmount_unknown (src : string) (st st1 : Store) :
  fixSource os e (Name r) st = Some (src, st1) ->
  HasMount (mountm st) (mountpoint os (root e) (Name r)) = false ->
  Unmount os e r st =
    unmount_and_remove os (mountpoint os (root e) (Name r)) st1.
Proof.
  intros Hf Hh. destruct (fixSource_calls _ _ _ _ _ _ Hf) as [Hm _].
  unfold Unmount, bind, gets, modify, ret.
  rewrite Hf, Hm, Hh. reflexivity.
Qed.

(** The physical unmount is called once; the directory is removed only when
    it succeeded; the first failure is the response. *)
Lemma unmount_and_remove_cases (dest : string) (st : Store) :
  unmount_and_remove os dest st =
    match run os (calls st) (Sprintf_umount dest) with
    | Some msg =>
        Some (Response_err msg, record_call (CallRun (Sprintf_umount dest)) st)
    | None =>
        match RemoveAll os (CallRun (Sprintf_umount dest) :: calls st) dest with
        | Some msg =>
            Some (Response_err msg,
                  record_call (CallRemoveAll dest)
                    (record_call (CallRun (Sprintf_umount dest)) st))
        | None =>
            Some (Response_empty,
                  record_call (CallRemoveAll dest)
                    (record_call (CallRun (Sprintf_umount dest)) st))
        end
    end.
Proof.
  unfold unmount_and_remove, bind, ret, call_run, call_RemoveAll.
  destruct (run os (calls st) _); [reflexivity|]. simpl.
  destruct (RemoveAll os _ _); reflexivity.
Qed.

(** Once the source is resolved, [Mount] succeeds when directory creation
    and the physical mount do, and [Unmount] when the physical unmount and
    the removal do. *)
Lemma Mount_succeeds (src : string) (st st1 : Store) :
  fixSource os e (Name r) st = Some (src, st1) ->
  mount_reliable os ->
  exists st', Mount os e r st
              = Some (Response_mountpoint (mountpoint os (root e) (Name r)), st').
Proof.
  intros Hf [Hc Hm].
  destruct (HasMount (mountm st) (mountpoint os (root e) (Name r))
            && (0 <? Count (mountm st) (mountpoint os (root e) (Name r))))
    eqn:Hlive.
  - apply andb_prop in Hlive as [Hh Hpos]. apply Z.ltb_lt in Hpos.
    rewrite (Mount_reuse src st st1 Hf Hh Hpos). eauto.
  - rewrite (Mount_fresh src st st1 Hf Hlive), Hc, Hm. eauto.
Qed.

Lemma Unmount_succeeds (src : string) (st st1 : Store) :
  fixSource os e (Name r) st = Some (src, st1) ->
  unmount_reliable os ->
  exists st', Unmount os e r st = Some (Response_empty, st').
Proof.
  intros Hf [Hrun Hrm].
  destruct (HasMount (mountm st) (mountpoint os (root e) (Name r))) eqn:Hh.
  - destruct (Z.lt_ge_cases 1
                (Count (mountm st) (mountpoint os (root e) (Name r))))
      as [Hc|Hc].
    + rewrite (Unmount_shared src st st1 Hf Hc). eauto.
    + rewrite (Unmount_last src st st1 Hf Hh Hc), unmount_and_remove_cases,
        Hrun, Hrm. eauto.
  - rewrite (Unmount_unknown src st st1 Hf Hh), unmount_and_remove_cases,
      Hrun, Hrm. eauto.
Qed.

End Bodies.

(** ** Claims about source resolution and construction *)

(** C5: in non-resolving mode the source of the volume name "server1/export"
    is "server1:/export"; in general the first path segment is taken as the
    server and joined to the rest of the name by ":/".  The store comes back
    unchanged: no host is looked up, whatever the collaborators are. *)
Theorem fixSource_literal_server (os : Collaborators) (e : efsDriver)
    (st : Store) :
  resolve e = false ->
  fixSource os e "server1/export" st = Some ("server1:/export", st)
  /\ (forall host rest : string,
        free_of slash host = true ->
        fixSource os e (host +:+ "/" +:+ rest) st
          = Some (host +:+ ":/" +:+ rest, st)).
Proof.
  intros Hr. split.
  - now apply (fixSource_literal os e _ "server1" ["export"]).
  - intros host rest Hfree.
    destruct (Split_head slash rest) as (w & ws & Hs).
    rewrite (fixSource_literal os e _ host (w :: ws) st Hr).
    + do 2 f_equal. change (Join ((host +:+ ":") :: w :: ws) "/")
        with ((host +:+ ":") +:+ "/" +:+ Join (w :: ws) "/").
      rewrite <- Hs. pose proof (Join_Split slash rest) as HJ.
      unfold slash in HJ at 2. rewrite HJ, append_assoc. reflexivity.
    + rewrite <- Hs. now apply (Split_first slash).
Qed.

Lemma fixSource_literal_server_witness :
  resolve Sample.literal = false
  /\ fixSource Sample.os_nodns Sample.literal "server1/export" Sample.fresh
       = Some ("server1:/export", Sample.fresh)
  /\ (forall host rest : string,
        free_of slash host = true ->
        fixSource Sample.os_nodns Sample.literal (host +:+ "/" +:+ rest)
          Sample.fresh
          = Some (host +:+ ":/" +:+ rest, Sample.fresh)).
Proof.
  split; [reflexivity|].
  apply (fixSource_literal_server Sample.os_nodns Sample.literal Sample.fresh).
  reflexivity.
Defined.

(** C10: in non-resolving mode the source of a volume name without "/" is
    the name followed by ":" and nothing else. *)
Theorem fixSource_literal_no_slash (os : Collaborators) (e : efsDriver)
    (name : string) (st : Store) :
  resolve e = false ->
  free_of slash name = true ->
  fixSource os e name st = Some (name +:+ ":", st).
Proof.
  intros Hr Hfree.
  now rewrite (fixSource_literal os e name name [] st Hr (Split_free _ _ Hfree)).
Qed.

Lemma fixSource_literal_no_slash_witness :
  resolve Sample.literal = false
  /\ free_of slash "server1" = true
  /\ fixSource Sample.os_up Sample.literal "server1" Sample.fresh
       = Some ("server1:", Sample.fresh).
Proof.
  split; [reflexivity|]. split; [reflexivity|].
  apply (fixSource_literal_no_slash Sample.os_up Sample.literal "server1");
    reflexivity.
Defined.

(** C4 fails on the code: with availability zone "az1" and region
    "us-east-1" the host built for "vol1/sub/path" is looked up and resolves
    to "10.0.0.5", but the source is "10.0.0.5:/", not "10.0.0.5:/sub/path".
    The resolving branches of [fixSource] drop the segments after the first,
    which its non-resolving branch keeps. *)
Lemma fixSource_resolving_drops_path :
  LookupHost Sample.os_up [] "az1.vol1.efs.us-east-1.amazonaws.com"
    = inl ["10.0.0.5"]
  /\ fst <$> fixSource Sample.os_up Sample.resolving "vol1/sub/path"
               Sample.fresh
     = Some "10.0.0.5:/"
  /\ fst <$> fixSource Sample.os_up Sample.resolving "vol1/sub/path"
               Sample.fresh
     <> Some "10.0.0.5:/sub/path".
Proof. split; [reflexivity|split; [reflexivity|discriminate]]. Qed.

(** What the resolving branches return as the code stands: for the volume
    name "vol1/sub/path" with availability zone "az1" and region
    "us-east-1", the host looked up is
    "az1.vol1.efs.us-east-1.amazonaws.com", and when it resolves to
    "10.0.0.5" the source is "10.0.0.5:/"; for every name it is the first
    address followed by ":/". *)
Theorem fixSource_resolving_host_only (os : Collaborators) (root0 : string)
    (more : list string) (st : Store) :
  dnscache st !! "az1.vol1.efs.us-east-1.amazonaws.com" = None ->
  LookupHost os (calls st) "az1.vol1.efs.us-east-1.amazonaws.com"
    = inl ("10.0.0.5" :: more) ->
  fixSource os
    {| root := root0; availzone := "az1"; resolve := true;
       region := "us-east-1" |}
    "vol1/sub/path" st
  = Some ("10.0.0.5:/",
          {| mountm := mountm st;
             dnscache := <["az1.vol1.efs.us-east-1.amazonaws.com"
                           := "10.0.0.5"]> (dnscache st);
             calls := CallLookupHost "az1.vol1.efs.us-east-1.amazonaws.com"
                      :: calls st |})
  /\ (forall (e : efsDriver) (name v0 ip : string) (segs ips : list string)
        (st0 : Store),
        resolve e = true ->
        Split name slash = v0 :: segs ->
        dnscache st0 !! Sprintf_EfsTemplateURI (availzone e) v0 (region e)
          = None ->
        LookupHost os (calls st0)
          (Sprintf_EfsTemplateURI (availzone e) v0 (region e))
          = inl (ip :: ips) ->
        fst <$> fixSource os e name st0 = Some (ip +:+ ":/")).
Proof.
  intros Hmiss Hlook. split.
  - exact (fixSource_resolved os
             {| root := root0; availzone := "az1"; resolve := true;
                region := "us-east-1" |}
             "vol1/sub/path" "vol1" "10.0.0.5" ["sub"; "path"] more st
             eq_refl eq_refl Hmiss Hlook).
  - intros e name v0 ip segs ips st0 Hr Hs Hc Hl.
    now rewrite (fixSource_resolved os e name v0 ip segs ips st0 Hr Hs Hc Hl).
Qed.

Lemma fixSource_resolving_host_only_witness :
  dnscache Sample.fresh !! "az1.vol1.efs.us-east-1.amazonaws.com" = None
  /\ LookupHost Sample.os_up (calls Sample.fresh)
       "az1.vol1.efs.us-east-1.amazonaws.com" = inl ["10.0.0.5"]
  /\ fst <$> fixSource Sample.os_up Sample.resolving "vol1/sub/path"
               Sample.fresh
     = Some "10.0.0.5:/".
Proof.
  split; [reflexivity|]. split; [reflexivity|].
  destruct (fixSource_resolving_host_only Sample.os_up "/mnt" [] Sample.fresh)
    as [H _]; [reflexivity|reflexivity|].
  unfold Sample.resolving. now rewrite H.
Defined.

(** C6: in resolving mode a cached address is the source host; on a miss
    that resolves, the first address returned is cached and is the source
    host; when the lookup fails the host name itself is the source host, and
    neither [Mount] nor [Unmount] fails for it: each succeeds whenever its
    physical steps do. *)
Theorem fixSource_dns_policy (os : Collaborators) (e : efsDriver)
    (r : Request) (v0 : string) (segs : list string) (st : Store) :
  resolve e = true ->
  Split (Name r) slash = v0 :: segs ->
  (forall i : string,
     dnscache st !! Sprintf_EfsTemplateURI (availzone e) v0 (region e) = Some i ->
     fixSource os e (Name r) st = Some (i +:+ ":/", st))
  /\ (forall (ip : string) (more : list string),
        dnscache st !! Sprintf_EfsTemplateURI (availzone e) v0 (region e)
          = None ->
        LookupHost os (calls st)
          (Sprintf_EfsTemplateURI (availzone e) v0 (region e))
          = inl (ip :: more) ->
        fixSource os e (Name r) st
        = Some (ip +:+ ":/",
                {| mountm := mountm st;
                   dnscache :=
                     <[Sprintf_EfsTemplateURI (availzone e) v0 (region e)
                       := ip]> (dnscache st);
                   calls :=
                     CallLookupHost
                       (Sprintf_EfsTemplateURI (availzone e) v0 (region e))
                     :: calls st |}))
  /\ (forall msg : string,
        dnscache st !! Sprintf_EfsTemplateURI (availzone e) v0 (region e)
          = None ->
        LookupHost os (calls st)
          (Sprintf_EfsTemplateURI (availzone e) v0 (region e))
          = inr msg ->
        fixSource os e (Name r) st
        = Some (Sprintf_EfsTemplateURI (availzone e) v0 (region e) +:+ ":/",
                record_call
                  (CallLookupHost
                     (Sprintf_EfsTemplateURI (availzone e) v0 (region e)))
                  st)
        /\ (mount_reliable os ->
            exists st',
              Mount os e r st
              = Some (Response_mountpoint (mountpoint os (root e) (Name r)),
                      st'))
        /\ (unmount_reliable os ->
            exists st', Unmount os e r st = Some (Response_empty, st'))).
Proof.
  intros Hr Hs. repeat apply conj.
  - intros i Hc. exact (fixSource_cached os e _ v0 i segs st Hr Hs Hc).
  - intros ip more Hc Hl.
    exact (fixSource_resolved os e _ v0 ip segs more st Hr Hs Hc Hl).
  - intros msg Hc Hl.
    pose proof (fixSource_unresolved os e _ v0 msg segs st Hr Hs Hc Hl) as Hf.
    split; [exact Hf|]. split; intros Hok.
    + exact (Mount_succeeds os e r _ st _ Hf Hok).
    + exact (Unmount_succeeds os e r _ st _ Hf Hok).
Qed.

Lemma fixSource_dns_policy_witness :
  resolve Sample.resolving = true
  /\ Split "vol1/sub/path" slash = ["vol1"; "sub"; "path"]
  /\ fixSource Sample.os_nodns Sample.resolving "vol1/sub/path" Sample.fresh
     = Some ("az1.vol1.efs.us-east-1.amazonaws.com:/",
             record_call
               (CallLookupHost "az1.vol1.efs.us-east-1.amazonaws.com")
               Sample.fresh)
  /\ (exists st',
        Mount Sample.os_nodns Sample.resolving {| Name := "vol1/sub/path" |}
          Sample.fresh
        = Some (Response_mountpoint "/mnt/vol1/sub/path", st')).
Proof.
  split; [reflexivity|]. split; [reflexivity|].
  destruct (fixSource_dns_policy Sample.os_nodns Sample.resolving
              {| Name := "vol1/sub/path" |} "vol1" ["sub"; "path"]
              Sample.fresh eq_refl eq_refl) as (_ & _ & H).
  destruct (H "no such host" eq_refl eq_refl) as (Hf & Hm & _).
  split; [exact Hf|]. apply Hm. split; reflexivity.
Defined.

(** C7 fails on the code: a non-empty availability-zone override is dropped.
    Constructed with the override "us-east-1a" on a host whose metadata
    gives zone "az1", the driver has the empty availability zone. *)
Theorem NewEFSDriver_override_lost :
  fetchAWSMetaData Sample.os_up [] = inl Sample.metadata
  /\ fst <$> NewEFSDriver Sample.os_up "/mnt" "us-east-1a" true []
     = Some {| root := "/mnt"; availzone := ""; resolve := true;
               region := "us-east-1" |}.
Proof. split; reflexivity. Qed.

(** The availability zone of a new driver: the one of the metadata when the
    override is empty, and empty otherwise. *)
Lemma NewEFSDriver_availzone (os : Collaborators) (root0 az : string)
    (resolve0 : bool) (history : list Call) (md : AWSMetaData) :
  fetchAWSMetaData os history = inl md ->
  exists d st,
    NewEFSDriver os root0 az resolve0 history = Some (d, st)
    /\ root d = root0 /\ resolve d = resolve0 /\ region d = Region md
    /\ availzone d = (if String.eqb az "" then AvailZone md else "")
    /\ mountm st = ∅ /\ dnscache st = ∅.
Proof.
  intros Hmd. unfold NewEFSDriver. rewrite Hmd.
  destruct (String.eqb az ""); simpl; eauto 10.
Qed.

(** ** The registry *)

Section RegistryFacts.

Variable mm : gmap string MountRecord.
Variable mp : string.

Lemma Count_absent : HasMount mm mp = false -> Count mm mp = 0.
Proof.
  unfold HasMount, Count. destruct (mm !! mp) as [rec|]; [|reflexivity].
  intros H. apply bool_decide_eq_false in H. now destruct H.
Qed.

Lemma HasMount_positive : 0 < Count mm mp -> HasMount mm mp = true.
Proof.
  destruct (HasMount mm mp) eqn:E; [reflexivity|].
  rewrite (Count_absent E). lia.
Qed.

Lemma Count_Increment :
  0 < Count mm mp -> Count (Increment mm mp) mp = Count mm mp + 1.
Proof.
  unfold Count, Increment. rewrite lookup_alter_eq.
  destruct (mm !! mp) as [rec|]; simpl; lia.
Qed.

Lemma Count_Decrement :
  Count (Decrement mm mp) mp = Z.max 0 (Count mm mp - 1).
Proof.
  unfold Count, Decrement. rewrite lookup_alter_eq.
  destruct (mm !! mp) as [rec|]; simpl; lia.
Qed.

Lemma HasMount_Decrement : HasMount (Decrement mm mp) mp = HasMount mm mp.
Proof.
  unfold HasMount, Decrement. rewrite lookup_alter_eq.
  destruct (mm !! mp) as [rec|]; reflexivity.
Qed.

Lemma Count_Add (name : string) : Count (Add mm mp name) mp = 1.
Proof. unfold Count, Add. now rewrite lookup_insert_eq. Qed.

Lemma live_false_iff :
  HasMount mm mp && (0 <? Count mm mp) = false <-> Count mm mp <= 0.
Proof.
  split.
  - intros H. destruct (Z.ltb_spec 0 (Count mm mp)) as [Hpos|]; [|assumption].
    rewrite (HasMount_positive Hpos) in H. discriminate.
  - intros H. apply andb_false_iff. right. now apply Z.ltb_ge.
Qed.

End RegistryFacts.

(** ** What the calls of source resolution leave unchanged *)

Section Observers.

Variable os : Collaborators.
Variable e : efsDriver.

Lemma physical_fixSource (name src : string) (st st1 : Store) :
  fixSource os e name st = Some (src, st1) ->
  physical (calls st1) = physical (calls st).
Proof.
  intros Hf. destruct (fixSource_calls _ _ _ _ _ _ Hf) as [_ [->|[host ->]]];
    reflexivity.
Qed.

Lemma count_fixSource (p : Call -> bool) (name src : string) (st st1 : Store) :
  (forall host, p (CallLookupHost host) = false) ->
  fixSource os e name st = Some (src, st1) ->
  count p (calls st1) = count p (calls st).
Proof.
  intros Hp Hf.
  destruct (fixSource_calls _ _ _ _ _ _ Hf) as [_ [->|[host ->]]];
    [reflexivity|]. simpl. now rewrite Hp.
Qed.

End Observers.

(** ** Claims about the mount life cycle *)

(** Two consumers of one volume in resolving mode, oldest call first: one
    lookup, one directory, one mount, and at the end one unmount and one
    removal. *)
Example two_consumers_calls :
  (fun p => (fst p, rev (calls (snd p))))
  <$> serve_all Sample.os_up Sample.resolving
        [ {| goroutine := 0; op := OpMount; request := {| Name := "vol1" |} |};
          {| goroutine := 1; op := OpMount; request := {| Name := "vol1" |} |};
          {| goroutine := 0; op := OpUnmount;
             request := {| Name := "vol1" |} |};
          {| goroutine := 1; op := OpUnmount;
             request := {| Name := "vol1" |} |} ]
        Sample.fresh
  = Some ([ Response_mountpoint "/mnt/vol1"; Response_mountpoint "/mnt/vol1";
            Response_empty; Response_empty ],
          [ CallLookupHost "az1.vol1.efs.us-east-1.amazonaws.com";
            CallCreateDest "/mnt/vol1";
            CallMountVolume "10.0.0.5:/" "/mnt/vol1" 4;
            CallRun "umount /mnt/vol1";
            CallRemoveAll "/mnt/vol1" ]).
Proof. vm_compute. reflexivity. Qed.

(** C1: when the registry counts more than one consumer of the mountpoint,
    [Unmount] takes one from the count and succeeds without any physical
    call; an [Unmount] that finds the count at 1 brings it to 0 and calls
    the physical unmount of that mountpoint exactly once. *)
Theorem Unmount_last_consumer (os : Collaborators) (e : efsDriver)
    (r : Request) (st : Store) :
  lookup_sane os ->
  1 < Count (mountm st) (mountpoint os (root e) (Name r)) ->
  (exists st1,
     Unmount os e r st = Some (Response_empty, st1)
     /\ Count (mountm st1) (mountpoint os (root e) (Name r))
        = Count (mountm st) (mountpoint os (root e) (Name r)) - 1
     /\ physical (calls st1) = physical (calls st))
  /\ (forall st2 : Store,
        Count (mountm st2) (mountpoint os (root e) (Name r)) = 1 ->
        exists resp st3,
          Unmount os e r st2 = Some (resp, st3)
          /\ Count (mountm st3) (mountpoint os (root e) (Name r)) = 0
          /\ (physical (calls st3)
              = CallRun (Sprintf_umount (mountpoint os (root e) (Name r)))
                :: physical (calls st2)
              \/ physical (calls st3)
                 = CallRemoveAll (mountpoint os (root e) (Name r))
                   :: CallRun (Sprintf_umount (mountpoint os (root e) (Name r)))
                   :: physical (calls st2))).
Proof.
  intros Hsane Hc. split.
  - destruct (fixSource_total os e (Name r) st Hsane) as (src & st1 & Hf).
    eexists. split; [exact (Unmount_shared os e r src st st1 Hf Hc)|].
    simpl. rewrite Count_Decrement. split; [lia|].
    exact (physical_fixSource os e _ _ _ _ Hf).
  - intros st2 Hone.
    destruct (fixSource_total os e (Name r) st2 Hsane) as (src & st1 & Hf).
    assert (Hh : HasMount (mountm st2) (mountpoint os (root e) (Name r)) = true)
      by (apply HasMount_positive; lia).
    rewrite (Unmount_last os e r src st2 st1 Hf Hh) by lia.
    rewrite unmount_and_remove_cases. simpl.
    pose proof (physical_fixSource os e _ _ _ _ Hf) as Hp.
    assert (Hz : Count (Decrement (mountm st2)
                          (mountpoint os (root e) (Name r)))
                   (mountpoint os (root e) (Name r)) = 0)
      by (rewrite Count_Decrement; lia).
    destruct (run os (calls st1) _) as [msg|].
    + eexists _, _. split; [reflexivity|]. simpl. rewrite Hp. auto.
    + destruct (RemoveAll os _ _) as [msg|];
        (eexists _, _; split; [reflexivity|]; simpl; rewrite Hp; auto).
Qed.

Lemma Unmount_last_consumer_witness :
  lookup_sane Sample.os_up
  /\ 1 < Count (mountm (Sample.shared "/mnt/vol1" "vol1" 2)) "/mnt/vol1"
  /\ exists st1,
       Unmount Sample.os_up Sample.resolving {| Name := "vol1" |}
         (Sample.shared "/mnt/vol1" "vol1" 2)
       = Some (Response_empty, st1)
       /\ Count (mountm st1) "/mnt/vol1" = 2 - 1
       /\ physical (calls st1) = [].
Proof.
  split; [intros h host; discriminate|]. split; [reflexivity|].
  destruct (Unmount_last_consumer Sample.os_up Sample.resolving
              {| Name := "vol1" |} (Sample.shared "/mnt/vol1" "vol1" 2))
    as [(st1 & H1 & H2 & H3) _].
  - intros h host; discriminate.
  - reflexivity.
  - exists st1. split; [exact H1|]. split; [exact H2|exact H3].
Defined.

(** C2: when the registry counts at least one consumer of the computed
    mountpoint, [Mount] adds one to the count and returns that mountpoint
    without creating a directory or calling the physical mount; it is the
    mountpoint returned by any [Mount] of the same request that took the
    count from 0 to a positive value. *)
Theorem Mount_reuses_live_mount (os : Collaborators) (e : efsDriver)
    (r : Request) (st : Store) :
  lookup_sane os ->
  0 < Count (mountm st) (mountpoint os (root e) (Name r)) ->
  (exists st',
     Mount os e r st
     = Some (Response_mountpoint (mountpoint os (root e) (Name r)), st')
     /\ Count (mountm st') (mountpoint os (root e) (Name r))
        = Count (mountm st) (mountpoint os (root e) (Name r)) + 1
     /\ physical (calls st') = physical (calls st))
  /\ (forall (st0 st0' : Store) (first : Response),
        Mount os e r st0 = Some (first, st0') ->
        Count (mountm st0) (mountpoint os (root e) (Name r)) = 0 ->
        0 < Count (mountm st0') (mountpoint os (root e) (Name r)) ->
        first = Response_mountpoint (mountpoint os (root e) (Name r))).
Proof.
  intros Hsane Hc. split.
  - destruct (fixSource_total os e (Name r) st Hsane) as (src & st1 & Hf).
    eexists. split.
    + exact (Mount_reuse os e r src st st1 Hf (HasMount_positive _ _ Hc) Hc).
    + simpl. split; [now apply Count_Increment|].
      exact (physical_fixSource os e _ _ _ _ Hf).
  - intros st0 st0' first Hm Hzero Hpos.
    destruct (fixSource_total os e (Name r) st0 Hsane) as (src & st1 & Hf).
    rewrite (Mount_fresh os e r src st0 st1 Hf) in Hm
      by (apply live_false_iff; lia).
    destruct (createDest os (calls st1) _) as [msg|].
    { injection Hm as <- <-. simpl in Hpos.
      destruct (fixSource_calls _ _ _ _ _ _ Hf) as [Heq _].
      rewrite Heq in Hpos. lia. }
    destruct (mountVolume os _ _ _ _) as [msg|].
    { injection Hm as <- <-. simpl in Hpos.
      destruct (fixSource_calls _ _ _ _ _ _ Hf) as [Heq _].
      rewrite Heq in Hpos. lia. }
    now injection Hm as <- <-.
Qed.

Lemma Mount_reuses_live_mount_witness :
  lookup_sane Sample.os_up
  /\ 0 < Count (mountm (Sample.shared "/mnt/vol1" "vol1" 1)) "/mnt/vol1"
  /\ exists st',
       Mount Sample.os_up Sample.resolving {| Name := "vol1" |}
         (Sample.shared "/mnt/vol1" "vol1" 1)
       = Some (Response_mountpoint "/mnt/vol1", st')
       /\ Count (mountm st') "/mnt/vol1" = 1 + 1
       /\ physical (calls st') = [].
Proof.
  split; [intros h host; discriminate|]. split; [reflexivity|].
  destruct (Mount_reuses_live_mount Sample.os_up Sample.resolving
              {| Name := "vol1" |} (Sample.shared "/mnt/vol1" "vol1" 1))
    as [(st' & H1 & H2 & H3) _].
  - intros h host; discriminate.
  - reflexivity.
  - exists st'. split; [exact H1|]. split; [exact H2|exact H3].
Defined.

(** C3: when directory creation or the physical mount fails, [Mount] returns
    the error's message in the failure field of the response and leaves the
    registry as it was, so that a retried [Mount] again takes the path of a
    first mount. *)
Theorem Mount_failure_keeps_registry (os : Collaborators) (e : efsDriver)
    (r : Request) (src msg : string) (st st1 : Store) :
  fixSource os e (Name r) st = Some (src, st1) ->
  HasMount (mountm st) (mountpoint os (root e) (Name r))
    && (0 <? Count (mountm st) (mountpoint os (root e) (Name r))) = false ->
  createDest os (calls st1) (mountpoint os (root e) (Name r)) = Some msg
  \/ (createDest os (calls st1) (mountpoint os (root e) (Name r)) = None
      /\ mountVolume os
           (CallCreateDest (mountpoint os (root e) (Name r)) :: calls st1)
           src (mountpoint os (root e) (Name r)) 4 = Some msg) ->
  exists st',
    Mount os e r st = Some (Response_err msg, st')
    /\ mountm st' = mountm st
    /\ HasMount (mountm st') (mountpoint os (root e) (Name r))
         && (0 <? Count (mountm st') (mountpoint os (root e) (Name r)))
       = false.
Proof.
  intros Hf Hlive Hfail.
  destruct (fixSource_calls _ _ _ _ _ _ Hf) as [Heq _].
  rewrite (Mount_fresh os e r src st st1 Hf Hlive).
  destruct Hfail as [->|[-> ->]];
    (eexists; split; [reflexivity|]; simpl; rewrite Heq; auto).
Qed.

Lemma Mount_failure_keeps_registry_witness :
  fixSource Sample.os_flaky Sample.literal "server1/export" Sample.fresh
    = Some ("server1:/export", Sample.fresh)
  /\ HasMount (mountm Sample.fresh) "/mnt/server1/export"
       && (0 <? Count (mountm Sample.fresh) "/mnt/server1/export") = false
  /\ mountVolume Sample.os_flaky [CallCreateDest "/mnt/server1/export"]
       "server1:/export" "/mnt/server1/export" 4 = Some "exit status 32"
  /\ exists st',
       Mount Sample.os_flaky Sample.literal {| Name := "server1/export" |}
         Sample.fresh
       = Some (Response_err "exit status 32", st')
       /\ mountm st' = ∅.
Proof.
  split; [reflexivity|]. split; [reflexivity|]. split; [reflexivity|].
  destruct (Mount_failure_keeps_registry Sample.os_flaky Sample.literal
              {| Name := "server1/export" |} "server1:/export"
              "exit status 32" Sample.fresh Sample.fresh)
    as (st' & H1 & H2 & _).
  - reflexivity.
  - reflexivity.
  - right. split; reflexivity.
  - exists st'. split; [exact H1|exact H2].
Defined.

(** C9: when the registry has no record of the computed mountpoint,
    [Unmount] still calls the physical unmount of that mountpoint and, when
    it succeeds, removes the directory of the mountpoint; the failure of
    either step is the error of the response, and the registry is left as it
    was. *)
Theorem Unmount_without_record (os : Collaborators) (e : efsDriver)
    (r : Request) (src : string) (st st1 : Store) :
  fixSource os e (Name r) st = Some (src, st1) ->
  HasMount (mountm st) (mountpoint os (root e) (Name r)) = false ->
  (forall msg : string,
     run os (calls st1) (Sprintf_umount (mountpoint os (root e) (Name r)))
       = Some msg ->
     Unmount os e r st
     = Some (Response_err msg,
             {| mountm := mountm st; dnscache := dnscache st1;
                calls :=
                  CallRun (Sprintf_umount (mountpoint os (root e) (Name r)))
                  :: calls st1 |}))
  /\ (run os (calls st1) (Sprintf_umount (mountpoint os (root e) (Name r)))
        = None ->
      forall err : option string,
        RemoveAll os
          (CallRun (Sprintf_umount (mountpoint os (root e) (Name r)))
           :: calls st1)
          (mountpoint os (root e) (Name r)) = err ->
        Unmount os e r st
        = Some (match err with
                | Some msg => Response_err msg
                | None => Response_empty
                end,
                {| mountm := mountm st; dnscache := dnscache st1;
                   calls :=
                     CallRemoveAll (mountpoint os (root e) (Name r))
                     :: CallRun
                          (Sprintf_umount (mountpoint os (root e) (Name r)))
                     :: calls st1 |})).
Proof.
  intros Hf Hh.
  destruct (fixSource_calls _ _ _ _ _ _ Hf) as [Heq _].
  rewrite (Unmount_unknown os e r src st st1 Hf Hh), unmount_and_remove_cases.
  split.
  - intros msg ->. unfold record_call. now rewrite Heq.
  - intros -> err ->. unfold record_call. simpl. rewrite Heq.
    now destruct err.
Qed.

Lemma Unmount_without_record_witness :
  fixSource Sample.os_busy Sample.literal "server1/export" Sample.fresh
    = Some ("server1:/export", Sample.fresh)
  /\ HasMount (mountm Sample.fresh) "/mnt/server1/export" = false
  /\ Unmount Sample.os_busy Sample.literal {| Name := "server1/export" |}
       Sample.fresh
     = Some (Response_err "exit status 16",
             {| mountm := ∅; dnscache := ∅;
                calls := [CallRun "umount /mnt/server1/export"] |})
  /\ Unmount Sample.os_up Sample.literal {| Name := "server1/export" |}
       Sample.fresh
     = Some (Response_empty,
             {| mountm := ∅; dnscache := ∅;
                calls := [CallRemoveAll "/mnt/server1/export";
                          CallRun "umount /mnt/server1/export"] |}).
Proof.
  split; [reflexivity|]. split; [reflexivity|]. split.
  - destruct (Unmount_without_record Sample.os_busy Sample.literal
                {| Name := "server1/export" |} "server1:/export"
                Sample.fresh Sample.fresh eq_refl eq_refl) as [H _].
    exact (H "exit status 16" eq_refl).
  - destruct (Unmount_without_record Sample.os_up Sample.literal
                {| Name := "server1/export" |} "server1:/export"
                Sample.fresh Sample.fresh eq_refl eq_refl) as [_ H].
    exact (H eq_refl None eq_refl).
Defined.

(** ** Serialised executions *)

Section Serialised.

Variable os : Collaborators.
Variable e : efsDriver.
Variable r : Request.

Hypothesis Hsane : lookup_sane os.

Lemma serve_all_app (a b : list Invocation) (st : Store) :
  serve_all os e (a ++ b) st =
    match serve_all os e a st with
    | Some (ra, st1) =>
        match serve_all os e b st1 with
        | Some (rb, st2) => Some (ra ++ rb, st2)
        | None => None
        end
    | None => None
    end.
Proof.
  revert st. induction a as [|i a IH]; intros st; simpl.
  - unfold ret. now destruct (serve_all os e b st) as [[rb st2]|].
  - unfold bind, ret.
    destruct (serve os e i st) as [[resp st1]|]; [|reflexivity].
    rewrite IH. destruct (serve_all os e a st1) as [[ra st2]|]; [|reflexivity].
    now destruct (serve_all os e b st2) as [[rb st3]|].
Qed.

(** Every permutation of concurrent calls of one operation on one request
    is a list of such calls, of the same length. *)
Lemma concurrent_calls_all (o : Op) (first n : nat) :
  Forall (fun i => op i = o /\ request i = r) (concurrent_calls o r first n)
  /\ length (concurrent_calls o r first n) = n.
Proof.
  revert first. induction n as [|n IH]; intros first; simpl.
  - split; [constructor|reflexivity].
  - destruct (IH (S first)) as [HF HL]. split; [|now rewrite HL].
    constructor; [now split|exact HF].
Qed.

Lemma Permutation_concurrent_calls (o : Op) (first n : nat)
    (l : list Invocation) :
  Permutation l (concurrent_calls o r first n) ->
  Forall (fun i => op i = o /\ request i = r) l /\ length l = n.
Proof.
  intros Hp. destruct (concurrent_calls_all o first n) as [HF HL]. split.
  - exact (Permutation_Forall (Permutation_sym Hp) HF).
  - now rewrite (Permutation_length Hp).
Qed.

(** The first [Mount] mounts physically and registers the mountpoint. *)
Lemma Mount_first (st : Store) :
  mount_reliable os ->
  Count (mountm st) (mountpoint os (root e) (Name r)) <= 0 ->
  exists st',
    Mount os e r st
    = Some (Response_mountpoint (mountpoint os (root e) (Name r)), st')
    /\ Count (mountm st') (mountpoint os (root e) (Name r)) = 1
    /\ count is_mount (calls st') = S (count is_mount (calls st))
    /\ count is_umount (calls st') = count is_umount (calls st).
Proof.
  intros [Hc Hm] Hzero.
  destruct (fixSource_total os e (Name r) st Hsane) as (src & st1 & Hf).
  rewrite (Mount_fresh os e r src st st1 Hf) by now apply live_false_iff.
  rewrite Hc, Hm. eexists. split; [reflexivity|]. simpl.
  rewrite Count_Add.
  rewrite (count_fixSource os e is_mount _ _ _ _ (fun _ => eq_refl) Hf).
  rewrite (count_fixSource os e is_umount _ _ _ _ (fun _ => eq_refl) Hf).
  auto.
Qed.

(** Later [Mount]s only count. *)
Lemma serve_mounts (ms : list Invocation) (st : Store) :
  Forall (fun i => op i = OpMount /\ request i = r) ms ->
  0 < Count (mountm st) (mountpoint os (root e) (Name r)) ->
  exists resps st',
    serve_all os e ms st = Some (resps, st')
    /\ Count (mountm st') (mountpoint os (root e) (Name r))
       = Count (mountm st) (mountpoint os (root e) (Name r))
         + Z.of_nat (length ms)
    /\ count is_mount (calls st') = count is_mount (calls st)
    /\ count is_umount (calls st') = count is_umount (calls st).
Proof.
  intros HF. revert st.
  induction HF as [|i ms [Ho Hr] _ IH]; intros st Hpos; simpl.
  - eexists _, _. split; [reflexivity|]. split; [lia|auto].
  - destruct (fixSource_total os e (Name r) st Hsane) as (src & st1 & Hf).
    unfold bind, serve. rewrite Ho, Hr.
    rewrite (Mount_reuse os e r src st st1 Hf (HasMount_positive _ _ Hpos) Hpos).
    destruct (IH (set_mountm
                    (Increment (mountm st) (mountpoint os (root e) (Name r)))
                    st1))
      as (resps & st' & Hrun & Hcount & Hm & Hu).
    { simpl. rewrite Count_Increment by assumption. lia. }
    rewrite Hrun. eexists _, _. split; [reflexivity|].
    simpl in Hcount, Hm, Hu. rewrite Count_Increment in Hcount by assumption.
    rewrite Hcount, Hm, Hu.
    rewrite (count_fixSource os e is_mount _ _ _ _ (fun _ => eq_refl) Hf).
    rewrite (count_fixSource os e is_umount _ _ _ _ (fun _ => eq_refl) Hf).
    split; [lia|auto].
Qed.

(** As many [Unmount]s as there are consumers: the last one, and only it,
    unmounts physically. *)
Lemma serve_unmounts (us : list Invocation) (st : Store) :
  Forall (fun i => op i = OpUnmount /\ request i = r) us ->
  us <> [] ->
  Count (mountm st) (mountpoint os (root e) (Name r)) = Z.of_nat (length us) ->
  exists resps st',
    serve_all os e us st = Some (resps, st')
    /\ Count (mountm st') (mountpoint os (root e) (Name r)) = 0
    /\ HasMount (mountm st') (mountpoint os (root e) (Name r)) = true
    /\ count is_mount (calls st') = count is_mount (calls st)
    /\ count is_umount (calls st') = S (count is_umount (calls st)).
Proof.
  intros HF. revert st.
  induction HF as [|i us [Ho Hr] HF IH]; intros st Hne Hcount; [done|].
  destruct (fixSource_total os e (Name r) st Hsane) as (src & st1 & Hf).
  pose proof (count_fixSource os e is_mount _ _ _ _ (fun _ => eq_refl) Hf)
    as Hm1.
  pose proof (count_fixSource os e is_umount _ _ _ _ (fun _ => eq_refl) Hf)
    as Hu1.
  assert (Hh : HasMount (mountm st) (mountpoint os (root e) (Name r)) = true).
  { apply HasMount_positive. rewrite Hcount. simpl. lia. }
  simpl. unfold bind, serve. rewrite Ho, Hr.
  destruct us as [|j us].
  - simpl in Hcount.
    rewrite (Unmount_last os e r src st st1 Hf Hh) by lia.
    rewrite unmount_and_remove_cases.
    assert (Hz : Count (Decrement (mountm st)
                          (mountpoint os (root e) (Name r)))
                   (mountpoint os (root e) (Name r)) = 0)
      by (rewrite Count_Decrement; lia).
    destruct (run os _ _) as [msg|]; [|destruct (RemoveAll os _ _) as [msg|]];
      (eexists _, _; split; [reflexivity|]; simpl;
       rewrite HasMount_Decrement, Hm1, Hu1; auto).
  - assert (Hc : 1 < Count (mountm st) (mountpoint os (root e) (Name r)))
      by (rewrite Hcount; simpl length; lia).
    rewrite (Unmount_shared os e r src st st1 Hf Hc).
    destruct (IH (set_mountm
                    (Decrement (mountm st) (mountpoint os (root e) (Name r)))
                    st1))
      as (resps & st' & Hrun & Hzero & Hhas & Hm & Hu); [done| |].
    { simpl. rewrite Count_Decrement, Hcount. simpl length. lia. }
    rewrite Hrun. eexists _, _. split; [reflexivity|].
    simpl in Hm, Hu. rewrite Hm, Hu, Hm1, Hu1. auto.
Qed.

End Serialised.

(** C8, as stated, fails.  When the first physical mount fails and the
    second succeeds, two [Mount] calls followed by two [Unmount] calls make
    two physical mount calls and two physical unmount calls; and no call at
    all makes none. *)
Lemma exactly_once_fails :
  ~ exactly_once Sample.os_flaky Sample.literal {| Name := "server1/export" |} 2
  /\ ~ exactly_once Sample.os_up Sample.literal {| Name := "server1/export" |} 0.
Proof.
  split; intros H.
  - destruct (H (concurrent_calls OpMount {| Name := "server1/export" |} 0 2
                 ++ concurrent_calls OpUnmount {| Name := "server1/export" |}
                      2 2))
      as (resps & st' & Hrun & Hm & Hu & _).
    { eexists _, _. split; [reflexivity|]. split; apply Permutation_refl. }
    assert (E : (fun p => (count is_mount (calls (snd p)),
                            count is_umount (calls (snd p))))
                <$> serve_all Sample.os_flaky Sample.literal
                      (concurrent_calls OpMount {| Name := "server1/export" |}
                         0 2
                       ++ concurrent_calls OpUnmount
                            {| Name := "server1/export" |} 2 2)
                      {| mountm := NewVolumeManager; dnscache := ∅;
                         calls := [] |}
                = Some (2%nat, 2%nat)) by (vm_compute; reflexivity).
    rewrite Hrun in E. simpl in E. rewrite Hm in E. discriminate E.
  - destruct (H []) as (resps & st' & Hrun & Hm & _).
    { exists [], []. split; [reflexivity|]. split; apply Permutation_refl. }
    injection Hrun as _ <-. discriminate Hm.
Qed.

(** C8, amended: when directory creation and the physical mount succeed,
    then for every N of at least 1, from a store in which the mountpoint has
    no record or a count of zero, and in whatever order N concurrent [Mount]
    calls on a volume followed by N [Unmount] calls on it take the lock,
    exactly one physical mount and exactly one physical unmount are called,
    and the record of the mountpoint is left with a count of zero. *)
Theorem serialised_exactly_once (os : Collaborators) (e : efsDriver)
    (r : Request) (n : nat) (sched : list Invocation) (st : Store) :
  lookup_sane os ->
  mount_reliable os ->
  (0 < n)%nat ->
  Count (mountm st) (mountpoint os (root e) (Name r)) = 0 ->
  mounts_then_unmounts r n sched ->
  exists resps st',
    serve_all os e sched st = Some (resps, st')
    /\ count is_mount (calls st') = S (count is_mount (calls st))
    /\ count is_umount (calls st') = S (count is_umount (calls st))
    /\ HasMount (mountm st') (mountpoint os (root e) (Name r)) = true
    /\ Count (mountm st') (mountpoint os (root e) (Name r)) = 0.
Proof.
  intros Hsane Hok Hn Hzero (ms & us & -> & Hpm & Hpu).
  apply (Permutation_concurrent_calls r) in Hpm as [HFm HLm].
  apply (Permutation_concurrent_calls r) in Hpu as [HFu HLu].
  destruct ms as [|i ms]; [simpl in HLm; lia|].
  apply Forall_cons in HFm as [[Ho Hr] HFm].
  destruct (Mount_first os e r Hsane st Hok) as (st1 & Hrun1 & Hc1 & Hm1 & Hu1);
    [lia|].
  destruct (serve_mounts os e r Hsane ms st1 HFm)
    as (resps2 & st2 & Hrun2 & Hc2 & Hm2 & Hu2); [lia|].
  destruct (serve_unmounts os e r Hsane us st2 HFu)
    as (resps3 & st3 & Hrun3 & Hc3 & Hh3 & Hm3 & Hu3).
  { intros ->. simpl in HLu. lia. }
  { rewrite Hc2, Hc1, HLu. simpl in HLm. lia. }
  rewrite serve_all_app. simpl. unfold bind, serve, ret.
  rewrite Ho, Hr, Hrun1, Hrun2, Hrun3.
  eexists _, _. split; [reflexivity|].
  rewrite Hm3, Hu3, Hm2, Hu2, Hm1, Hu1. auto.
Qed.

Lemma serialised_exactly_once_witness :
  lookup_sane Sample.os_up
  /\ mount_reliable Sample.os_up
  /\ (0 < 2)%nat
  /\ Count (mountm Sample.fresh) "/mnt/server1/export" = 0
  /\ exists resps st',
       serve_all Sample.os_up Sample.literal
         [ {| goroutine := 1; op := OpMount;
              request := {| Name := "server1/export" |} |};
           {| goroutine := 0; op := OpMount;
              request := {| Name := "server1/export" |} |};
           {| goroutine := 2; op := OpUnmount;
              request := {| Name := "server1/export" |} |};
           {| goroutine := 3; op := OpUnmount;
              request := {| Name := "server1/export" |} |} ]
         Sample.fresh
       = Some (resps, st')
       /\ count is_mount (calls st') = 1%nat
       /\ count is_umount (calls st') = 1%nat
       /\ Count (mountm st') "/mnt/server1/export" = 0.
Proof.
  split; [intros h host; discriminate|].
  split; [split; reflexivity|].
  split; [lia|]. split; [reflexivity|].
  destruct (serialised_exactly_once Sample.os_up Sample.literal
              {| Name := "server1/export" |} 2
              [ {| goroutine := 1; op := OpMount;
                   request := {| Name := "server1/export" |} |};
                {| goroutine := 0; op := OpMount;
                   request := {| Name := "server1/export" |} |};
                {| goroutine := 2; op := OpUnmount;
                   request := {| Name := "server1/export" |} |};
                {| goroutine := 3; op := OpUnmount;
                   request := {| Name := "server1/export" |} |} ]
              Sample.fresh)
    as (resps & st' & Hrun & Hm & Hu & _ & Hc).
  - intros h host; discriminate.
  - split; reflexivity.
  - lia.
  - reflexivity.
  - eexists [_; _], [_; _]. split; [reflexivity|].
    split; [apply perm_swap|apply Permutation_refl].
  - exists resps, st'. split; [exact Hrun|].
    split; [exact Hm|]. split; [exact Hu|exact Hc].
Defined.

(** * Further properties of the driver *)

(** ** Every way through [Mount] and [Unmount] *)

Lemma Decrement_absent (mm : gmap string MountRecord) (mp : string) :
  HasMount mm mp = false -> Decrement mm mp = mm.
Proof.
  unfold HasMount, Decrement. intros H. apply alter_id'.
  destruct (mm !! mp) as [rec|]; [|reflexivity].
  apply bool_decide_eq_false in H. now destruct H.
Qed.

Section Steps.

Variable os : Collaborators.
Variable e : efsDriver.
Variable r : Request.

Lemma Mount_inv (st st' : Store) (resp : Response) :
  Mount os e r st = Some (resp, st') ->
  exists src st1,
    fixSource os e (Name r) st = Some (src, st1)
    /\ ((0 < Count (mountm st) (mountpoint os (root e) (Name r))
         /\ resp = Response_mountpoint (mountpoint os (root e) (Name r))
         /\ st' = set_mountm
                    (Increment (mountm st) (mountpoint os (root e) (Name r)))
                    st1)
        \/ (Count (mountm st) (mountpoint os (root e) (Name r)) <= 0
            /\ exists msg,
                 createDest os (calls st1) (mountpoint os (root e) (Name r))
                   = Some msg
                 /\ resp = Response_err msg
                 /\ st' = record_call
                            (CallCreateDest (mountpoint os (root e) (Name r)))
                            st1)
        \/ (Count (mountm st) (mountpoint os (root e) (Name r)) <= 0
            /\ createDest os (calls st1) (mountpoint os (root e) (Name r))
               = None
            /\ exists msg,
                 mountVolume os
                   (CallCreateDest (mountpoint os (root e) (Name r))
                    :: calls st1)
                   src (mountpoint os (root e) (Name r)) 4 = Some msg
                 /\ resp = Response_err msg
                 /\ st' = record_call
                            (CallMountVolume src
                               (mountpoint os (root e) (Name r)) 4)
                            (record_call
                               (CallCreateDest
                                  (mountpoint os (root e) (Name r))) st1))
        \/ (Count (mountm st) (mountpoint os (root e) (Name r)) <= 0
            /\ createDest os (calls st1) (mountpoint os (root e) (Name r))
               = None
            /\ mountVolume os
                 (CallCreateDest (mountpoint os (root e) (Name r))
                  :: calls st1)
                 src (mountpoint os (root e) (Name r)) 4 = None
            /\ resp = Response_mountpoint (mountpoint os (root e) (Name r))
            /\ st' = set_mountm
                       (Add (mountm st) (mountpoint os (root e) (Name r))
                          (Name r))
                       (record_call
                          (CallMountVolume src
                             (mountpoint os (root e) (Name r)) 4)
                          (record_call
                             (CallCreateDest
                                (mountpoint os (root e) (Name r))) st1)))).
Proof.
  intros H.
  assert (exists src st1, fixSource os e (Name r) st = Some (src, st1))
    as (src & st1 & Hf).
  { unfold Mount, bind in H.
    destruct (fixSource os e (Name r) st) as [[src st1]|]; [eauto|discriminate]. }
  exists src, st1. split; [exact Hf|].
  destruct (Z.lt_ge_cases 0
              (Count (mountm st) (mountpoint os (root e) (Name r))))
    as [Hpos|Hle].
  - rewrite (Mount_reuse os e r src st st1 Hf (HasMount_positive _ _ Hpos) Hpos)
      in H.
    injection H as <- <-. auto.
  - rewrite (Mount_fresh os e r src st st1 Hf) in H
      by now apply live_false_iff.
    right. destruct (createDest os (calls st1) _) as [msg|] eqn:Hc.
    { injection H as <- <-. left. eauto 6. }
    right. destruct (mountVolume os _ _ _ _) as [msg|] eqn:Hm.
    { injection H as <- <-. left. eauto 8. }
    injection H as <- <-. right. auto 6.
Qed.

Lemma Unmount_inv (st st' : Store) (resp : Response) :
  Unmount os e r st = Some (resp, st') ->
  exists src st1,
    fixSource os e (Name r) st = Some (src, st1)
    /\ ((1 < Count (mountm st) (mountpoint os (root e) (Name r))
         /\ resp = Response_empty
         /\ st' = set_mountm
                    (Decrement (mountm st) (mountpoint os (root e) (Name r)))
                    st1)
        \/ (Count (mountm st) (mountpoint os (root e) (Name r)) <= 1
            /\ unmount_and_remove os (mountpoint os (root e) (Name r))
                 (set_mountm
                    (Decrement (mountm st) (mountpoint os (root e) (Name r)))
                    st1)
               = Some (resp, st'))).
Proof.
  intros H.
  assert (exists src st1, fixSource os e (Name r) st = Some (src, st1))
    as (src & st1 & Hf).
  { unfold Unmount, bind in H.
    destruct (fixSource os e (Name r) st) as [[src st1]|]; [eauto|discriminate]. }
  exists src, st1. split; [exact Hf|].
  destruct (Z.lt_ge_cases 1
              (Count (mountm st) (mountpoint os (root e) (Name r))))
    as [Hpos|Hle].
  - rewrite (Unmount_shared os e r src st st1 Hf Hpos) in H.
    injection H as <- <-. auto.
  - right. split; [exact Hle|].
    destruct (HasMount (mountm st) (mountpoint os (root e) (Name r))) eqn:Hh.
    + now rewrite <- (Unmount_last os e r src st st1 Hf Hh Hle).
    + rewrite (Decrement_absent _ _ Hh).
      destruct (fixSource_calls _ _ _ _ _ _ Hf) as [Hm _].
      replace (set_mountm (mountm st) st1) with st1
        by (destruct st1; unfold set_mountm; simpl in *; now subst).
      now rewrite <- (Unmount_unknown os e r src st st1 Hf Hh).
Qed.


End Steps.

(** ** The physical calls of one request *)





(** ** What one request does to the store *)

Section StoreEffects.

Variable os : Collaborators.
Variable e : efsDriver.

Lemma fixSource_inv (name src : string) (st st1 : Store) :
  fixSource os e name st = Some (src, st1) ->
  st1 = st
  \/ (resolve e = true
      /\ exists host,
           dnscache st !! host = None
           /\ (st1 = record_call (CallLookupHost host) st
               \/ exists ip,
                    st1 = {| mountm := mountm st;
                             dnscache := <[host := ip]> (dnscache st);
                             calls := CallLookupHost host :: calls st |})).
Proof.
  unfold fixSource, bind, gets, call_LookupHost, index, modify, ret, panic.
  destruct (Split_head slash name) as (v0 & segs & ->). simpl.
  destruct (resolve e).
  - destruct (dnscache st !! _) as [i|] eqn:Hc.
    + intros [= _ <-]. auto.
    + destruct (LookupHost os (calls st) _) as [[|ip more]|msg]; simpl.
      * discriminate.
      * intros [= _ <-]. right. split; [reflexivity|]. eauto 6.
      * intros [= _ <-]. right. split; [reflexivity|]. eauto 6.
  - intros [= _ <-]. auto.
Qed.

Lemma fixSource_dnscache_grows (name src : string) (st st1 : Store)
    (k v : string) :
  fixSource os e name st = Some (src, st1) ->
  dnscache st !! k = Some v -> dnscache st1 !! k = Some v.
Proof.
  intros Hf Hk.
  destruct (fixSource_inv _ _ _ _ Hf)
    as [->|(_ & host & Hmiss & [->|[ip ->]])]; [assumption|assumption|].
  simpl. rewrite lookup_insert_ne; [assumption|]. intros <-. congruence.
Qed.

Lemma Mount_store (r : Request) (st st' : Store) (resp : Response) :
  Mount os e r st = Some (resp, st') ->
  exists src st1,
    fixSource os e (Name r) st = Some (src, st1)
    /\ dnscache st' = dnscache st1
    /\ count is_lookup (calls st') = count is_lookup (calls st1)
    /\ (mountm st' = mountm st
        \/ mountm st' = Increment (mountm st) (mountpoint os (root e) (Name r))
        \/ mountm st'
           = Add (mountm st) (mountpoint os (root e) (Name r)) (Name r)).
Proof.
  intros H.
  destruct (Mount_inv os e r st st' resp H) as (src & st1 & Hf & Hcases).
  destruct (fixSource_calls _ _ _ _ _ _ Hf) as [Hm _].
  exists src, st1. split; [exact Hf|].
  destruct Hcases as [(_ & _ & ->)|[(_ & msg & _ & _ & ->)
                     |[(_ & _ & msg & _ & _ & ->)|(_ & _ & _ & _ & ->)]]];
    simpl; auto.
Qed.

Lemma Unmount_store (r : Request) (st st' : Store) (resp : Response) :
  Unmount os e r st = Some (resp, st') ->
  exists src st1,
    fixSource os e (Name r) st = Some (src, st1)
    /\ dnscache st' = dnscache st1
    /\ count is_lookup (calls st') = count is_lookup (calls st1)
    /\ mountm st' = Decrement (mountm st) (mountpoint os (root e) (Name r)).
Proof.
  intros H.
  destruct (Unmount_inv os e r st st' resp H) as (src & st1 & Hf & Hcases).
  exists src, st1. split; [exact Hf|].
  destruct Hcases as [(_ & _ & ->)|(_ & Hrun)]; [simpl; auto|].
  rewrite unmount_and_remove_cases in Hrun. simpl in Hrun.
  destruct (run os (calls st1) _) as [msg|];
    [injection Hrun as _ <-; simpl; auto|].
  destruct (RemoveAll os _ _) as [msg|]; injection Hrun as _ <-; simpl; auto.
Qed.

(** A property of two stores that holds from a store to itself, composes,
    and holds across each request of a schedule holds across the schedule. *)
Lemma serve_all_preserves (Q : Invocation -> Prop)
    (P : Store -> Store -> Prop) :
  (forall st, P st st) ->
  (forall a b c, P a b -> P b c -> P a c) ->
  (forall i st resp st',
     Q i -> serve os e i st = Some (resp, st') -> P st st') ->
  forall sched st resps st',
    Forall Q sched ->
    serve_all os e sched st = Some (resps, st') -> P st st'.
Proof.
  intros Hrefl Htrans Hstep sched.
  induction sched as [|i sched IH]; intros st resps st' HQ Hrun.
  - injection Hrun as _ <-. apply Hrefl.
  - apply Forall_cons in HQ as [Hi HQ]. simpl in Hrun. unfold bind in Hrun.
    destruct (serve os e i st) as [[resp st1]|] eqn:Hs; [|discriminate].
    destruct (serve_all os e sched st1) as [[resps' st2]|] eqn:Hr;
      [|discriminate].
    injection Hrun as _ <-.
    exact (Htrans _ _ _ (Hstep _ _ _ _ Hi Hs) (IH _ _ _ HQ Hr)).
Qed.

End StoreEffects.

(** ** Invariants of serialised executions *)

Lemma HasMount_alter (f : MountRecord -> MountRecord)
    (mm : gmap string MountRecord) (k mp : string) :
  HasMount (alter f k mm) mp = HasMount mm mp.
Proof.
  unfold HasMount. destruct (decide (k = mp)) as [->|Hne].
  - rewrite lookup_alter_eq. now destruct (mm !! mp).
  - now rewrite lookup_alter_ne.
Qed.

Lemma HasMount_Add (mm : gmap string MountRecord) (k name mp : string) :
  HasMount mm mp = true -> HasMount (Add mm k name) mp = true.
Proof.
  unfold HasMount, Add. intros H. destruct (decide (k = mp)) as [->|Hne].
  - rewrite lookup_insert_eq. now apply bool_decide_eq_true.
  - now rewrite lookup_insert_ne.
Qed.

Lemma serve_all_dnscache_grows (os : Collaborators) (e : efsDriver)
    (sched : list Invocation) (st st' : Store) (resps : list Response)
    (host ip : string) :
  serve_all os e sched st = Some (resps, st') ->
  dnscache st !! host = Some ip ->
  dnscache st' !! host = Some ip.
Proof.
  intros Hrun. revert host ip.
  apply (serve_all_preserves os e (fun _ => True)
           (fun a b => forall host ip,
              dnscache a !! host = Some ip -> dnscache b !! host = Some ip))
    with (sched := sched) (resps := resps); auto.
  - intros i s resp s' _ Hs host ip Hk. unfold serve in Hs.
    destruct (op i).
    + destruct (Mount_store os e _ _ _ _ Hs) as (src & s1 & Hf & -> & _).
      exact (fixSource_dnscache_grows os e _ _ _ _ _ _ Hf Hk).
    + destruct (Unmount_store os e _ _ _ _ Hs) as (src & s1 & Hf & -> & _).
      exact (fixSource_dnscache_grows os e _ _ _ _ _ _ Hf Hk).
  - now apply Forall_forall.
Qed.

(** X3: an address in the DNS cache stays there, unchanged, through every
    serialised execution of [Mount] and [Unmount] calls: the cache is never
    overwritten, expired or cleared. *)
Theorem dnscache_entries_persist (os : Collaborators) (e : efsDriver)
    (sched : list Invocation) (st st' : Store) (resps : list Response)
    (host ip : string) :
  serve_all os e sched st = Some (resps, st') ->
  dnscache st !! host = Some ip ->
  dnscache st' !! host = Some ip.
Proof. exact (serve_all_dnscache_grows os e sched st st' resps host ip). Qed.

Lemma dnscache_entries_persist_witness :
  serve_all Sample.os_up Sample.resolving
    [ {| goroutine := 0; op := OpMount; request := {| Name := "vol2" |} |};
      {| goroutine := 0; op := OpUnmount; request := {| Name := "vol2" |} |} ]
    {| mountm := ∅;
       dnscache := {[ "az1.vol1.efs.us-east-1.amazonaws.com" := "10.0.0.9" ]};
       calls := [] |}
  = Some ([Response_mountpoint "/mnt/vol2"; Response_empty],
          {| mountm := {[ "/mnt/vol2" := {| volumeName := "vol2";
                                            refCount := 0 |} ]};
             dnscache :=
               <[ "az1.vol2.efs.us-east-1.amazonaws.com" := "10.0.0.5" ]>
                 {[ "az1.vol1.efs.us-east-1.amazonaws.com" := "10.0.0.9" ]};
             calls := [CallRemoveAll "/mnt/vol2"; CallRun "umount /mnt/vol2";
                       CallMountVolume "10.0.0.5:/" "/mnt/vol2" 4;
                       CallCreateDest "/mnt/vol2";
                       CallLookupHost "az1.vol2.efs.us-east-1.amazonaws.com"]
          |})
  /\ (<[ "az1.vol2.efs.us-east-1.amazonaws.com" := "10.0.0.5" ]>
        {[ "az1.vol1.efs.us-east-1.amazonaws.com" := "10.0.0.9" ]}
      : gmap string string) !! "az1.vol1.efs.us-east-1.amazonaws.com"
     = Some "10.0.0.9".
Proof.
  assert (H : serve_all Sample.os_up Sample.resolving
    [ {| goroutine := 0; op := OpMount; request := {| Name := "vol2" |} |};
      {| goroutine := 0; op := OpUnmount; request := {| Name := "vol2" |} |} ]
    {| mountm := ∅;
       dnscache := {[ "az1.vol1.efs.us-east-1.amazonaws.com" := "10.0.0.9" ]};
       calls := [] |}
  = Some ([Response_mountpoint "/mnt/vol2"; Response_empty],
          {| mountm := {[ "/mnt/vol2" := {| volumeName := "vol2";
                                            refCount := 0 |} ]};
             dnscache :=
               <[ "az1.vol2.efs.us-east-1.amazonaws.com" := "10.0.0.5" ]>
                 {[ "az1.vol1.efs.us-east-1.amazonaws.com" := "10.0.0.9" ]};
             calls := [CallRemoveAll "/mnt/vol2"; CallRun "umount /mnt/vol2";
                       CallMountVolume "10.0.0.5:/" "/mnt/vol2" 4;
                       CallCreateDest "/mnt/vol2";
                       CallLookupHost "az1.vol2.efs.us-east-1.amazonaws.com"]
          |})) by (vm_compute; reflexivity).
  split; [exact H|].
  exact (dnscache_entries_persist _ _ _ _ _ _
           "az1.vol1.efs.us-east-1.amazonaws.com" "10.0.0.9" H eq_refl).
Defined.

(** X4: a driver that does not resolve never looks a host up and never
    touches the DNS cache, in any serialised execution of [Mount] and
    [Unmount] calls. *)
Theorem literal_mode_never_resolves (os : Collaborators) (e : efsDriver)
    (sched : list Invocation) (st st' : Store) (resps : list Response) :
  resolve e = false ->
  serve_all os e sched st = Some (resps, st') ->
  dnscache st' = dnscache st
  /\ count is_lookup (calls st') = count is_lookup (calls st).
Proof.
  intros Hr Hrun.
  apply (serve_all_preserves os e (fun _ => True)
           (fun a b => dnscache b = dnscache a
                       /\ count is_lookup (calls b) = count is_lookup (calls a)))
    with (sched := sched) (resps := resps); auto.
  - intros a b c [H1 H2] [H3 H4]. split; congruence.
  - intros i s resp s' _ Hs. unfold serve in Hs.
    assert (forall name src s1,
              fixSource os e name s = Some (src, s1) -> s1 = s) as Hlit.
    { intros name src s1 Hf.
      destruct (fixSource_inv os e _ _ _ _ Hf) as [->|[Hres _]];
        [reflexivity|congruence]. }
    destruct (op i).
    + destruct (Mount_store os e _ _ _ _ Hs) as (src & s1 & Hf & -> & -> & _).
      now rewrite (Hlit _ _ _ Hf).
    + destruct (Unmount_store os e _ _ _ _ Hs)
        as (src & s1 & Hf & -> & -> & _).
      now rewrite (Hlit _ _ _ Hf).
  - now apply Forall_forall.
Qed.

Lemma literal_mode_never_resolves_witness :
  resolve Sample.literal = false
  /\ (exists resps st',
        serve_all Sample.os_nodns Sample.literal
          [ {| goroutine := 0; op := OpMount;
               request := {| Name := "server1/export" |} |};
            {| goroutine := 0; op := OpUnmount;
               request := {| Name := "server1/export" |} |} ]
          Sample.fresh = Some (resps, st')
        /\ dnscache st' = ∅
        /\ count is_lookup (calls st') = 0%nat).
Proof.
  split; [reflexivity|].
  eexists _, _.
  assert (H : serve_all Sample.os_nodns Sample.literal
                [ {| goroutine := 0; op := OpMount;
                     request := {| Name := "server1/export" |} |};
                  {| goroutine := 0; op := OpUnmount;
                     request := {| Name := "server1/export" |} |} ]
                Sample.fresh
              = Some ([Response_mountpoint "/mnt/server1/export";
                       Response_empty],
                      {| mountm := {[ "/mnt/server1/export" :=
                                        {| volumeName := "server1/export";
                                           refCount := 0 |} ]};
                         dnscache := ∅;
                         calls := [CallRemoveAll "/mnt/server1/export";
                                   CallRun "umount /mnt/server1/export";
                                   CallMountVolume "server1:/export"
                                     "/mnt/server1/export" 4;
                                   CallCreateDest "/mnt/server1/export"] |}))
    by (vm_compute; reflexivity).
  split; [exact H|].
  exact (literal_mode_never_resolves Sample.os_nodns Sample.literal _ _ _ _
           eq_refl H).
Defined.

(** X5: the record of a mountpoint changes only through requests for that
    mountpoint: a serialised execution none of whose requests is mounted
    there leaves its record exactly as it was. *)
Theorem other_mountpoints_untouched (os : Collaborators) (e : efsDriver)
    (sched : list Invocation) (st st' : Store) (resps : list Response)
    (mp : string) :
  Forall (fun i => mountpoint os (root e) (Name (request i)) <> mp) sched ->
  serve_all os e sched st = Some (resps, st') ->
  mountm st' !! mp = mountm st !! mp.
Proof.
  intros Hother Hrun.
  apply (serve_all_preserves os e
           (fun i => mountpoint os (root e) (Name (request i)) <> mp)
           (fun a b => mountm b !! mp = mountm a !! mp))
    with (sched := sched) (resps := resps); auto.
  - intros a b c H1 H2. congruence.
  - intros i s resp s' Hne Hs. unfold serve in Hs. destruct (op i).
    + destruct (Mount_store os e _ _ _ _ Hs)
        as (src & s1 & _ & _ & _ & [->|[->| ->]]); [reflexivity| |].
      * unfold Increment. now rewrite lookup_alter_ne.
      * unfold Add. now rewrite lookup_insert_ne.
    + destruct (Unmount_store os e _ _ _ _ Hs) as (src & s1 & _ & _ & _ & ->).
      unfold Decrement. now rewrite lookup_alter_ne.
Qed.

Lemma other_mountpoints_untouched_witness :
  Forall (fun i => mountpoint Sample.os_up (root Sample.literal)
                     (Name (request i)) <> "/mnt/server1/a")
    [ {| goroutine := 0; op := OpMount;
         request := {| Name := "server1/b" |} |};
      {| goroutine := 1; op := OpUnmount;
         request := {| Name := "server1/b" |} |} ]
  /\ exists resps st',
       serve_all Sample.os_up Sample.literal
         [ {| goroutine := 0; op := OpMount;
              request := {| Name := "server1/b" |} |};
           {| goroutine := 1; op := OpUnmount;
              request := {| Name := "server1/b" |} |} ]
         (Sample.shared "/mnt/server1/a" "server1/a" 3)
       = Some (resps, st')
       /\ mountm st' !! "/mnt/server1/a"
          = Some {| volumeName := "server1/a"; refCount := 3 |}.
Proof.
  assert (HF : Forall (fun i => mountpoint Sample.os_up (root Sample.literal)
                                  (Name (request i)) <> "/mnt/server1/a")
                 [ {| goroutine := 0; op := OpMount;
                      request := {| Name := "server1/b" |} |};
                   {| goroutine := 1; op := OpUnmount;
                      request := {| Name := "server1/b" |} |} ])
    by (repeat constructor; discriminate).
  split; [exact HF|].
  destruct (serve_all Sample.os_up Sample.literal
              [ {| goroutine := 0; op := OpMount;
                   request := {| Name := "server1/b" |} |};
                {| goroutine := 1; op := OpUnmount;
                   request := {| Name := "server1/b" |} |} ]
              (Sample.shared "/mnt/server1/a" "server1/a" 3))
    as [[resps st']|] eqn:Hrun; [|discriminate Hrun].
  exists resps, st'. split; [reflexivity|].
  rewrite (other_mountpoints_untouched Sample.os_up Sample.literal _ _ _ _
             "/mnt/server1/a" HF Hrun).
  reflexivity.
Defined.

(** X6: the driver never deletes a registry record: a mountpoint the
    registry knows is still known after every serialised execution of
    [Mount] and [Unmount] calls, also after its last [Unmount]. *)
Theorem records_never_deleted (os : Collaborators) (e : efsDriver)
    (sched : list Invocation) (st st' : Store) (resps : list Response)
    (mp : string) :
  serve_all os e sched st = Some (resps, st') ->
  HasMount (mountm st) mp = true ->
  HasMount (mountm st') mp = true.
Proof.
  intros Hrun.
  apply (serve_all_preserves os e (fun _ => True)
           (fun a b => HasMount (mountm a) mp = true ->
                       HasMount (mountm b) mp = true))
    with (sched := sched) (resps := resps); auto.
  - intros i s resp s' _ Hs Hh. unfold serve in Hs. destruct (op i).
    + destruct (Mount_store os e _ _ _ _ Hs)
        as (src & s1 & _ & _ & _ & [->|[->| ->]]); [assumption| |].
      * unfold Increment. now rewrite HasMount_alter.
      * now apply HasMount_Add.
    + destruct (Unmount_store os e _ _ _ _ Hs) as (src & s1 & _ & _ & _ & ->).
      unfold Decrement. now rewrite HasMount_alter.
  - now apply Forall_forall.
Qed.

Lemma records_never_deleted_witness :
  HasMount (mountm (Sample.shared "/mnt/vol1" "vol1" 1)) "/mnt/vol1" = true
  /\ exists resps st',
       serve_all Sample.os_up Sample.resolving
         [ {| goroutine := 0; op := OpUnmount;
              request := {| Name := "vol1" |} |};
           {| goroutine := 1; op := OpUnmount;
              request := {| Name := "vol1" |} |} ]
         (Sample.shared "/mnt/vol1" "vol1" 1)
       = Some (resps, st')
       /\ HasMount (mountm st') "/mnt/vol1" = true.
Proof.
  split; [reflexivity|].
  destruct (serve_all Sample.os_up Sample.resolving
              [ {| goroutine := 0; op := OpUnmount;
                   request := {| Name := "vol1" |} |};
                {| goroutine := 1; op := OpUnmount;
                   request := {| Name := "vol1" |} |} ]
              (Sample.shared "/mnt/vol1" "vol1" 1))
    as [[resps st']|] eqn:Hrun; [|discriminate Hrun].
  exists resps, st'. split; [reflexivity|].
  exact (records_never_deleted Sample.os_up Sample.resolving _ _ _ _
           "/mnt/vol1" Hrun eq_refl).
Defined.

(** ** While consumers remain *)

Section Shared.

Variable os : Collaborators.
Variable e : efsDriver.
Variable r : Request.

Hypothesis Hsane : lookup_sane os.

Lemma serve_mounts_quiet (ms : list Invocation) (st : Store) :
  Forall (fun i => op i = OpMount /\ request i = r) ms ->
  0 < Count (mountm st) (mountpoint os (root e) (Name r)) ->
  exists resps st',
    serve_all os e ms st = Some (resps, st')
    /\ Count (mountm st') (mountpoint os (root e) (Name r))
       = Count (mountm st) (mountpoint os (root e) (Name r))
         + Z.of_nat (length ms)
    /\ physical (calls st') = physical (calls st)
    /\ Forall (fun resp => Err resp = "") resps.
Proof.
  intros HF. revert st.
  induction HF as [|i ms [Ho Hr] _ IH]; intros st Hpos; simpl.
  - eexists _, _. split; [reflexivity|]. split; [lia|auto].
  - destruct (fixSource_total os e (Name r) st Hsane) as (src & st1 & Hf).
    unfold bind, serve. rewrite Ho, Hr.
    rewrite (Mount_reuse os e r src st st1 Hf (HasMount_positive _ _ Hpos) Hpos).
    destruct (IH (set_mountm
                    (Increment (mountm st) (mountpoint os (root e) (Name r)))
                    st1))
      as (resps & st' & Hrun & Hcount & Hp & Hok).
    { simpl. rewrite Count_Increment by assumption. lia. }
    rewrite Hrun. eexists _, _. split; [reflexivity|].
    simpl in Hcount, Hp. rewrite Count_Increment in Hcount by assumption.
    rewrite Hcount, Hp, (physical_fixSource os e _ _ _ _ Hf).
    split; [lia|]. split; [reflexivity|]. now constructor.
Qed.

Lemma serve_unmounts_quiet (us : list Invocation) (st : Store) :
  Forall (fun i => op i = OpUnmount /\ request i = r) us ->
  Z.of_nat (length us) < Count (mountm st) (mountpoint os (root e) (Name r)) ->
  exists resps st',
    serve_all os e us st = Some (resps, st')
    /\ Count (mountm st') (mountpoint os (root e) (Name r))
       = Count (mountm st) (mountpoint os (root e) (Name r))
         - Z.of_nat (length us)
    /\ physical (calls st') = physical (calls st)
    /\ Forall (fun resp => Err resp = "") resps.
Proof.
  intros HF. revert st.
  induction HF as [|i us [Ho Hr] _ IH]; intros st Hlt; simpl.
  - eexists _, _. split; [reflexivity|]. split; [lia|auto].
  - simpl length in Hlt.
    destruct (fixSource_total os e (Name r) st Hsane) as (src & st1 & Hf).
    unfold bind, serve. rewrite Ho, Hr.
    rewrite (Unmount_shared os e r src st st1 Hf) by lia.
    destruct (IH (set_mountm
                    (Decrement (mountm st) (mountpoint os (root e) (Name r)))
                    st1))
      as (resps & st' & Hrun & Hcount & Hp & Hok).
    { simpl. rewrite Count_Decrement. lia. }
    rewrite Hrun. eexists _, _. split; [reflexivity|].
    simpl in Hcount, Hp. rewrite Count_Decrement in Hcount.
    rewrite Hcount, Hp, (physical_fixSource os e _ _ _ _ Hf).
    split; [lia|]. split; [reflexivity|]. now constructor.
Qed.

End Shared.

(** X7: while consumers remain, nothing physical happens.  From a mountpoint
    with a positive count, any number of [Mount] calls on the volume
    followed by [Unmount] calls that leave at least one consumer all
    succeed, make no physical call, and leave the count at its first value
    plus the mounts minus the unmounts. *)
Theorem shared_mount_stays_mounted (os : Collaborators) (e : efsDriver)
    (r : Request) (ms us : list Invocation) (st : Store) :
  lookup_sane os ->
  Forall (fun i => op i = OpMount /\ request i = r) ms ->
  Forall (fun i => op i = OpUnmount /\ request i = r) us ->
  0 < Count (mountm st) (mountpoint os (root e) (Name r)) ->
  Z.of_nat (length us)
    < Count (mountm st) (mountpoint os (root e) (Name r))
      + Z.of_nat (length ms) ->
  exists resps st',
    serve_all os e (ms ++ us) st = Some (resps, st')
    /\ Forall (fun resp => Err resp = "") resps
    /\ physical (calls st') = physical (calls st)
    /\ Count (mountm st') (mountpoint os (root e) (Name r))
       = Count (mountm st) (mountpoint os (root e) (Name r))
         + Z.of_nat (length ms) - Z.of_nat (length us).
Proof.
  intros Hsane HFm HFu Hpos Hlt.
  destruct (serve_mounts_quiet os e r Hsane ms st HFm Hpos)
    as (resps1 & st1 & Hrun1 & Hc1 & Hp1 & Hok1).
  destruct (serve_unmounts_quiet os e r Hsane us st1 HFu)
    as (resps2 & st2 & Hrun2 & Hc2 & Hp2 & Hok2); [lia|].
  rewrite serve_all_app, Hrun1, Hrun2. eexists _, _.
  split; [reflexivity|]. split; [now apply Forall_app|].
  split; [congruence|lia].
Qed.

Lemma shared_mount_stays_mounted_witness :
  lookup_sane Sample.os_busy
  /\ 0 < Count (mountm (Sample.shared "/mnt/vol1" "vol1" 1)) "/mnt/vol1"
  /\ exists resps st',
       serve_all Sample.os_busy Sample.resolving
         [ {| goroutine := 0; op := OpMount; request := {| Name := "vol1" |} |};
           {| goroutine := 1; op := OpMount; request := {| Name := "vol1" |} |};
           {| goroutine := 1; op := OpUnmount;
              request := {| Name := "vol1" |} |};
           {| goroutine := 0; op := OpUnmount;
              request := {| Name := "vol1" |} |} ]
         (Sample.shared "/mnt/vol1" "vol1" 1)
       = Some (resps, st')
       /\ physical (calls st') = []
       /\ Count (mountm st') "/mnt/vol1" = 1 + 2 - 2.
Proof.
  split; [intros h host; discriminate|]. split; [reflexivity|].
  destruct (shared_mount_stays_mounted Sample.os_busy Sample.resolving
              {| Name := "vol1" |}
              [ {| goroutine := 0; op := OpMount;
                   request := {| Name := "vol1" |} |};
                {| goroutine := 1; op := OpMount;
                   request := {| Name := "vol1" |} |} ]
              [ {| goroutine := 1; op := OpUnmount;
                   request := {| Name := "vol1" |} |};
                {| goroutine := 0; op := OpUnmount;
                   request := {| Name := "vol1" |} |} ]
              (Sample.shared "/mnt/vol1" "vol1" 1))
    as (resps & st' & Hrun & _ & Hp & Hc).
  - intros h host; discriminate.
  - repeat constructor.
  - repeat constructor.
  - reflexivity.
  - reflexivity.
  - exists resps, st'. split; [exact Hrun|]. split; [exact Hp|exact Hc].
Defined.

(** X8: the last consumer's [Unmount] retires the mount whether or not the
    physical unmount worked: after an [Unmount] at count 1 the count is 0.
    The next [Mount] of the volume that returns has therefore called
    [createDest]; when that answered an error, it stopped there with its
    message; when it succeeded, it called the physical mount, whose answer
    decides between its error message with the count still 0 and the
    mountpoint with the count at 1. *)
Theorem Mount_after_last_Unmount (os : Collaborators) (e : efsDriver)
    (r : Request) (st st' st'' : Store) (resp resp' : Response) :
  Count (mountm st) (mountpoint os (root e) (Name r)) = 1 ->
  Unmount os e r st = Some (resp, st') ->
  Mount os e r st' = Some (resp', st'') ->
  Count (mountm st') (mountpoint os (root e) (Name r)) = 0
  /\ exists src st1,
       fixSource os e (Name r) st' = Some (src, st1)
       /\ match createDest os (calls st1)
                  (mountpoint os (root e) (Name r)) with
          | Some msg =>
              resp' = Response_err msg
              /\ calls st''
                 = CallCreateDest (mountpoint os (root e) (Name r))
                   :: calls st1
              /\ Count (mountm st'') (mountpoint os (root e) (Name r)) = 0
          | None =>
              calls st''
              = CallMountVolume src (mountpoint os (root e) (Name r)) 4
                :: CallCreateDest (mountpoint os (root e) (Name r))
                :: calls st1
              /\ match mountVolume os
                         (CallCreateDest (mountpoint os (root e) (Name r))
                          :: calls st1)
                         src (mountpoint os (root e) (Name r)) 4 with
                 | Some msg =>
                     resp' = Response_err msg
                     /\ Count (mountm st'')
                          (mountpoint os (root e) (Name r)) = 0
                 | None =>
                     resp' = Response_mountpoint
                               (mountpoint os (root e) (Name r))
                     /\ Count (mountm st'')
                          (mountpoint os (root e) (Name r)) = 1
                 end
          end.
Proof.
  intros Hone Hu Hm.
  destruct (Unmount_store os e r st st' resp Hu) as (_ & _ & _ & _ & _ & Hreg).
  assert (Hzero : Count (mountm st') (mountpoint os (root e) (Name r)) = 0)
    by (rewrite Hreg, Count_Decrement; lia).
  split; [exact Hzero|].
  destruct (Mount_inv os e r st' st'' resp' Hm) as (src & st1 & Hf & Hcases).
  destruct (fixSource_calls _ _ _ _ _ _ Hf) as [Hsame _].
  exists src, st1. split; [exact Hf|].
  destruct Hcases as [(Hc & _)|[(_ & msg & Hcd & -> & ->)
                     |[(_ & Hcd & msg & Hmv & -> & ->)
                      |(_ & Hcd & Hmv & -> & ->)]]].
  - lia.
  - rewrite Hcd. simpl. rewrite Hsame. auto.
  - rewrite Hcd, Hmv. simpl. rewrite Hsame. auto.
  - rewrite Hcd, Hmv. simpl. rewrite Count_Add. auto.
Qed.

Lemma Mount_after_last_Unmount_witness :
  Count (mountm (Sample.shared "/mnt/server1/export" "server1/export" 1))
    "/mnt/server1/export" = 1
  /\ Unmount os_stuck Sample.literal {| Name := "server1/export" |}
       (Sample.shared "/mnt/server1/export" "server1/export" 1)
     = Some (Response_err "exit status 16",
             {| mountm := {[ "/mnt/server1/export" :=
                               {| volumeName := "server1/export";
                                  refCount := 0 |} ]};
                dnscache := ∅;
                calls := [CallRun "umount /mnt/server1/export"] |})
  /\ Mount os_stuck Sample.literal {| Name := "server1/export" |}
       {| mountm := {[ "/mnt/server1/export" :=
                         {| volumeName := "server1/export";
                            refCount := 0 |} ]};
          dnscache := ∅;
          calls := [CallRun "umount /mnt/server1/export"] |}
     = Some (Response_mountpoint "/mnt/server1/export",
             {| mountm := {[ "/mnt/server1/export" :=
                               {| volumeName := "server1/export";
                                  refCount := 1 |} ]};
                dnscache := ∅;
                calls := [CallMountVolume "server1:/export"
                            "/mnt/server1/export" 4;
                          CallCreateDest "/mnt/server1/export";
                          CallRun "umount /mnt/server1/export"] |})
  /\ Count {[ "/mnt/server1/export" :=
                {| volumeName := "server1/export"; refCount := 0 |} ]}
       "/mnt/server1/export" = 0
  /\ Count {[ "/mnt/server1/export" :=
                {| volumeName := "server1/export"; refCount := 1 |} ]}
       "/mnt/server1/export" = 1.
Proof.
  assert (Hu : Unmount os_stuck Sample.literal {| Name := "server1/export" |}
                 (Sample.shared "/mnt/server1/export" "server1/export" 1)
               = Some (Response_err "exit status 16",
                       {| mountm := {[ "/mnt/server1/export" :=
                                         {| volumeName := "server1/export";
                                            refCount := 0 |} ]};
                          dnscache := ∅;
                          calls := [CallRun "umount /mnt/server1/export"] |}))
    by reflexivity.
  assert (Hm : Mount os_stuck Sample.literal {| Name := "server1/export" |}
                 {| mountm := {[ "/mnt/server1/export" :=
                                   {| volumeName := "server1/export";
                                      refCount := 0 |} ]};
                    dnscache := ∅;
                    calls := [CallRun "umount /mnt/server1/export"] |}
               = Some (Response_mountpoint "/mnt/server1/export",
                       {| mountm := {[ "/mnt/server1/export" :=
                                         {| volumeName := "server1/export";
                                            refCount := 1 |} ]};
                          dnscache := ∅;
                          calls := [CallMountVolume "server1:/export"
                                      "/mnt/server1/export" 4;
                                    CallCreateDest "/mnt/server1/export";
                                    CallRun "umount /mnt/server1/export"] |}))
    by reflexivity.
  split; [reflexivity|]. split; [exact Hu|]. split; [exact Hm|].
  destruct (Mount_after_last_Unmount os_stuck Sample.literal
              {| Name := "server1/export" |}
              (Sample.shared "/mnt/server1/export" "server1/export" 1)
              _ _ _ _ eq_refl Hu Hm)
    as (Hzero & src & st1 & Hf & Hnext).
  split; [exact Hzero|].
  cbn [createDest mountVolume os_stuck] in Hnext.
  exact (proj2 (proj2 Hnext)).
Defined.

(** ** The DNS cache *)

Lemma length_append (a b : string) :
  String.length (a +:+ b) = (String.length a + String.length b)%nat.
Proof.
  induction a as [|c a IH]; [reflexivity|].
  change (S (String.length (a +:+ b))
          = S (String.length a + String.length b)). now rewrite IH.
Qed.

Lemma append_inj_r (s a b : string) : a +:+ s = b +:+ s -> a = b.
Proof.
  revert b. induction a as [|c a IH]; intros [|d b] H.
  - reflexivity.
  - apply (f_equal String.length) in H. rewrite !length_append in H.
    simpl in H. lia.
  - apply (f_equal String.length) in H. rewrite !length_append in H.
    simpl in H. lia.
  - change (String c (a +:+ s) = String d (b +:+ s)) in H.
    injection H as -> H. now rewrite (IH b H).
Qed.

(** Different first segments give different host names. *)
Lemma Sprintf_EfsTemplateURI_inj (a b b' c : string) :
  Sprintf_EfsTemplateURI a b c = Sprintf_EfsTemplateURI a b' c -> b = b'.
Proof.
  unfold Sprintf_EfsTemplateURI. intros H.
  apply String.app_inj in H. apply String.app_inj in H.
  exact (append_inj_r _ _ _ H).
Qed.

(** X9: a host is resolved once.  After a lookup that succeeded, every
    volume name with the same first segment gets the first address again,
    without any call to the resolver, after any serialised execution of
    further requests and whatever the collaborators have become. *)
Theorem resolved_host_is_reused (os os' : Collaborators) (e : efsDriver)
    (name name' v0 ip : string) (segs segs' more : list string)
    (st : Store) :
  resolve e = true ->
  Split name slash = v0 :: segs ->
  Split name' slash = v0 :: segs' ->
  dnscache st !! Sprintf_EfsTemplateURI (availzone e) v0 (region e) = None ->
  LookupHost os (calls st) (Sprintf_EfsTemplateURI (availzone e) v0 (region e))
    = inl (ip :: more) ->
  exists st1,
    fixSource os e name st = Some (ip +:+ ":/", st1)
    /\ forall (sched : list Invocation) (resps : list Response) (st2 : Store),
         serve_all os' e sched st1 = Some (resps, st2) ->
         fixSource os' e name' st2 = Some (ip +:+ ":/", st2).
Proof.
  intros Hr Hs Hs' Hmiss Hlook. eexists. split.
  - exact (fixSource_resolved os e name v0 ip segs more st Hr Hs Hmiss Hlook).
  - intros sched resps st2 Hrun.
    apply (fixSource_cached os' e name' v0 ip segs' st2 Hr Hs').
    apply (serve_all_dnscache_grows os' e sched _ st2 resps _ _ Hrun).
    simpl. apply lookup_insert_eq.
Qed.

Lemma resolved_host_is_reused_witness :
  resolve Sample.resolving = true
  /\ Split "vol1/a" slash = ["vol1"; "a"]
  /\ Split "vol1/b/c" slash = ["vol1"; "b"; "c"]
  /\ exists st1,
       fixSource Sample.os_up Sample.resolving "vol1/a" Sample.fresh
         = Some ("10.0.0.5:/", st1)
       /\ fixSource Sample.os_nodns Sample.resolving "vol1/b/c" st1
          = Some ("10.0.0.5:/", st1).
Proof.
  split; [reflexivity|]. split; [reflexivity|]. split; [reflexivity|].
  destruct (resolved_host_is_reused Sample.os_up Sample.os_nodns
              Sample.resolving "vol1/a" "vol1/b/c" "vol1" "10.0.0.5"
              ["a"] ["b"; "c"] [] Sample.fresh
              eq_refl eq_refl eq_refl eq_refl eq_refl) as (st1 & H1 & H2).
  exists st1. split; [exact H1|]. exact (H2 [] [] st1 eq_refl).
Defined.

(** X10: a failed lookup is not remembered.  The host name itself is the
    source host, the cache is left as it was, and the next resolution of the
    name asks the resolver again: when that lookup succeeds its first
    address is used. *)
Theorem failed_lookup_is_retried (os : Collaborators) (e : efsDriver)
    (name v0 msg : string) (segs : list string) (st : Store) :
  resolve e = true ->
  Split name slash = v0 :: segs ->
  dnscache st !! Sprintf_EfsTemplateURI (availzone e) v0 (region e) = None ->
  LookupHost os (calls st) (Sprintf_EfsTemplateURI (availzone e) v0 (region e))
    = inr msg ->
  exists st1,
    fixSource os e name st
    = Some (Sprintf_EfsTemplateURI (availzone e) v0 (region e) +:+ ":/", st1)
    /\ dnscache st1 = dnscache st
    /\ forall (ip : string) (more : list string),
         LookupHost os (calls st1)
           (Sprintf_EfsTemplateURI (availzone e) v0 (region e))
           = inl (ip :: more) ->
         exists st2,
           fixSource os e name st1 = Some (ip +:+ ":/", st2)
           /\ calls st2
              = CallLookupHost
                  (Sprintf_EfsTemplateURI (availzone e) v0 (region e))
                :: CallLookupHost
                     (Sprintf_EfsTemplateURI (availzone e) v0 (region e))
                :: calls st.
Proof.
  intros Hr Hs Hmiss Hfail. eexists. split; [|split].
  - exact (fixSource_unresolved os e name v0 msg segs st Hr Hs Hmiss Hfail).
  - reflexivity.
  - intros ip more Hlook. eexists. split.
    + exact (fixSource_resolved os e name v0 ip segs more
               (record_call
                  (CallLookupHost
                     (Sprintf_EfsTemplateURI (availzone e) v0 (region e))) st)
               Hr Hs Hmiss Hlook).
    + reflexivity.
Qed.

Lemma failed_lookup_is_retried_witness :
  resolve Sample.resolving = true
  /\ Split "vol1" slash = ["vol1"]
  /\ LookupHost os_slow_dns [] "az1.vol1.efs.us-east-1.amazonaws.com"
     = inr "no such host"
  /\ exists st1 st2,
       fixSource os_slow_dns Sample.resolving "vol1" Sample.fresh
         = Some ("az1.vol1.efs.us-east-1.amazonaws.com:/", st1)
       /\ fixSource os_slow_dns Sample.resolving "vol1" st1
          = Some ("10.0.0.7:/", st2).
Proof.
  split; [reflexivity|]. split; [reflexivity|]. split; [reflexivity|].
  destruct (failed_lookup_is_retried os_slow_dns Sample.resolving "vol1"
              "vol1" "no such host" [] Sample.fresh
              eq_refl eq_refl eq_refl eq_refl) as (st1 & H1 & Hc & H2).
  assert (E : fixSource os_slow_dns Sample.resolving "vol1" Sample.fresh
              = Some ("az1.vol1.efs.us-east-1.amazonaws.com:/",
                      record_call
                        (CallLookupHost "az1.vol1.efs.us-east-1.amazonaws.com")
                        Sample.fresh)) by reflexivity.
  rewrite E in H1. injection H1 as <-.
  destruct (H2 "10.0.0.7" ["10.0.0.8"] eq_refl) as (st2 & H3 & _).
  eexists _, st2. split; [exact E|exact H3].
Defined.

(** X11: resolving one volume never answers for another.  When the first
    segments of two names differ, a resolution of the first name leaves the
    cache without an address for the host of the second. *)
Theorem resolution_fills_own_entry_only (os : Collaborators) (e : efsDriver)
    (name v0 v0' src : string) (segs : list string) (st st1 : Store) :
  resolve e = true ->
  Split name slash = v0 :: segs ->
  v0 <> v0' ->
  dnscache st !! Sprintf_EfsTemplateURI (availzone e) v0' (region e) = None ->
  fixSource os e name st = Some (src, st1) ->
  dnscache st1 !! Sprintf_EfsTemplateURI (availzone e) v0' (region e) = None.
Proof.
  intros Hr Hs Hne Hmiss Hf.
  destruct (dnscache st !! Sprintf_EfsTemplateURI (availzone e) v0 (region e))
    as [i|] eqn:Hc.
  { rewrite (fixSource_cached os e name v0 i segs st Hr Hs Hc) in Hf.
    now injection Hf as _ <-. }
  destruct (LookupHost os (calls st)
              (Sprintf_EfsTemplateURI (availzone e) v0 (region e)))
    as [[|ip more]|msg] eqn:Hl.
  - exfalso. revert Hf.
    unfold fixSource, bind, gets, call_LookupHost, index. rewrite Hr, Hs.
    simpl. rewrite Hc, Hl. discriminate.
  - rewrite (fixSource_resolved os e name v0 ip segs more st Hr Hs Hc Hl) in Hf.
    injection Hf as _ <-. simpl. rewrite lookup_insert_ne; [assumption|].
    intros Heq. now apply Sprintf_EfsTemplateURI_inj in Heq.
  - rewrite (fixSource_unresolved os e name v0 msg segs st Hr Hs Hc Hl) in Hf.
    now injection Hf as _ <-.
Qed.

Lemma resolution_fills_own_entry_only_witness :
  resolve Sample.resolving = true
  /\ Split "vol1/a" slash = ["vol1"; "a"]
  /\ "vol1" <> "vol2"
  /\ exists st1,
       fixSource Sample.os_up Sample.resolving "vol1/a" Sample.fresh
         = Some ("10.0.0.5:/", st1)
       /\ dnscache st1 !! "az1.vol2.efs.us-east-1.amazonaws.com" = None.
Proof.
  split; [reflexivity|]. split; [reflexivity|]. split; [discriminate|].
  exists {| mountm := ∅;
            dnscache :=
              <[ "az1.vol1.efs.us-east-1.amazonaws.com" := "10.0.0.5" ]> ∅;
            calls := [CallLookupHost "az1.vol1.efs.us-east-1.amazonaws.com"] |}.
  split; [reflexivity|].
  refine (resolution_fills_own_entry_only Sample.os_up Sample.resolving
            "vol1/a" "vol1" "vol2" "10.0.0.5:/" ["a"] Sample.fresh _
            eq_refl eq_refl _ eq_refl eq_refl).
  discriminate.
Defined.

(** ** The literal source *)

(** In non-resolving mode the source is the name with a colon before its
    first slash, or at its end. *)
Lemma literal_source (name v0 : string) (segs : list string) :
  Split name slash = v0 :: segs ->
  Join ((v0 +:+ ":") :: segs) "/" = colon_before_slash name.
Proof.
  revert v0 segs. induction name as [|c s IH]; intros v0 segs; simpl.
  - now intros [= <- <-].
  - destruct (Ascii.eqb_spec c slash) as [->|Hc].
    + intros [= <- <-].
      destruct (Split_head slash s) as (w & ws & Hs). rewrite Hs.
      change (Join (("" +:+ ":") :: w :: ws) "/")
        with (":" +:+ "/" +:+ Join (w :: ws) "/").
      rewrite <- Hs. pose proof (Join_Split slash s) as HJ.
      unfold slash in HJ at 2. now rewrite HJ.
    + destruct (Split_head slash s) as (w & ws & Hs). rewrite Hs.
      intros [= <- <-].
      rewrite <- (IH w ws Hs). now destruct ws.
Qed.

Lemma colon_before_slash_head (s t : string) :
  colon_before_slash s <> String slash t /\ colon_before_slash s <> "".
Proof.
  destruct s as [|c s]; simpl; [split; discriminate|].
  destruct (Ascii.eqb_spec c slash) as [->|Hc]; split; try discriminate.
  intros [= Heq _]. contradiction.
Qed.

Lemma colon_before_slash_inj (s t : string) :
  colon_before_slash s = colon_before_slash t -> s = t.
Proof.
  revert t. induction s as [|c s IH]; intros [|d t]; simpl.
  - reflexivity.
  - destruct (Ascii.eqb_spec d slash) as [->|Hd]; [discriminate|].
    intros [= _ H]. symmetry in H.
    now apply (proj2 (colon_before_slash_head t "")) in H.
  - destruct (Ascii.eqb_spec c slash) as [->|Hc]; [discriminate|].
    intros [= _ H]. now apply (proj2 (colon_before_slash_head s "")) in H.
  - destruct (Ascii.eqb_spec c slash) as [->|Hc];
      destruct (Ascii.eqb_spec d slash) as [->|Hd].
    + now intros [= ->].
    + intros [= _ H]. symmetry in H.
      now apply (proj1 (colon_before_slash_head t s)) in H.
    + intros [= _ H]. now apply (proj1 (colon_before_slash_head s t)) in H.
    + intros [= -> H]. now rewrite (IH t H).
Qed.

(** X12: in non-resolving mode different volume names have different
    sources. *)
Theorem literal_source_injective (os os' : Collaborators) (e : efsDriver)
    (name name' src : string) (st st1 st' st1' : Store) :
  resolve e = false ->
  fixSource os e name st = Some (src, st1) ->
  fixSource os' e name' st' = Some (src, st1') ->
  name = name'.
Proof.
  intros Hr H1 H2.
  destruct (Split_head slash name) as (v0 & segs & Hs).
  destruct (Split_head slash name') as (v0' & segs' & Hs').
  rewrite (fixSource_literal os e name v0 segs st Hr Hs) in H1.
  rewrite (fixSource_literal os' e name' v0' segs' st' Hr Hs') in H2.
  rewrite (literal_source name v0 segs Hs) in H1.
  rewrite (literal_source name' v0' segs' Hs') in H2.
  apply colon_before_slash_inj. congruence.
Qed.

Lemma literal_source_injective_witness :
  resolve Sample.literal = false
  /\ fixSource Sample.os_up Sample.literal "server1/export" Sample.fresh
     = Some ("server1:/export", Sample.fresh)
  /\ fixSource Sample.os_nodns Sample.literal "server1/export"
       (Sample.shared "/mnt/vol1" "vol1" 1)
     = Some ("server1:/export", Sample.shared "/mnt/vol1" "vol1" 1)
  /\ "server1/export" = "server1/export".
Proof.
  split; [reflexivity|]. split; [reflexivity|]. split; [reflexivity|].
  exact (literal_source_injective Sample.os_up Sample.os_nodns Sample.literal
           "server1/export" "server1/export" "server1:/export"
           Sample.fresh Sample.fresh
           (Sample.shared "/mnt/vol1" "vol1" 1)
           (Sample.shared "/mnt/vol1" "vol1" 1)
           eq_refl eq_refl eq_refl).
Defined.

(** ** Construction, and the methods that do not mount *)

(** X13: a driver built without an availability-zone override starts with
    an empty cache, so its first resolution of a volume name looks up the
    host made of the zone from the metadata, the first segment of the name
    and the region from the metadata; the source is the first address found
    or, when the lookup fails, that host name. *)
Theorem new_driver_first_resolution (os : Collaborators) (root0 name v0 : string)
    (segs : list string) (history : list Call) (md : AWSMetaData) :
  fetchAWSMetaData os history = inl md ->
  Split name slash = v0 :: segs ->
  exists d st,
    NewEFSDriver os root0 "" true history = Some (d, st)
    /\ forall (src : string) (st1 : Store),
         fixSource os d name st = Some (src, st1) ->
         calls st1
         = CallLookupHost
             (Sprintf_EfsTemplateURI (AvailZone md) v0 (Region md))
           :: CallFetchAWSMetaData :: history
         /\ match LookupHost os (CallFetchAWSMetaData :: history)
                  (Sprintf_EfsTemplateURI (AvailZone md) v0 (Region md)) with
            | inl ips => exists ip more, ips = ip :: more /\ src = ip +:+ ":/"
            | inr _ =>
                src = Sprintf_EfsTemplateURI (AvailZone md) v0 (Region md)
                      +:+ ":/"
            end.
Proof.
  intros Hmd Hs. unfold NewEFSDriver. rewrite Hmd. simpl.
  eexists _, _. split; [reflexivity|]. intros src st1.
  unfold fixSource, bind, gets, call_LookupHost, index, modify, ret, panic.
  rewrite Hs. simpl. rewrite lookup_empty.
  destruct (LookupHost os _ _) as [[|ip more]|msg]; simpl.
  - discriminate.
  - intros [= <- <-]. simpl. eauto.
  - intros [= <- <-]. simpl. eauto.
Qed.

Lemma new_driver_first_resolution_witness :
  fetchAWSMetaData Sample.os_up [] = inl Sample.metadata
  /\ Split "vol1/sub/path" slash = ["vol1"; "sub"; "path"]
  /\ exists d st,
       NewEFSDriver Sample.os_up "/mnt" "" true [] = Some (d, st)
       /\ exists st1,
            fixSource Sample.os_up d "vol1/sub/path" st
              = Some ("10.0.0.5:/", st1)
            /\ calls st1
               = [CallLookupHost "az1.vol1.efs.us-east-1.amazonaws.com";
                  CallFetchAWSMetaData].
Proof.
  split; [reflexivity|]. split; [reflexivity|].
  destruct (new_driver_first_resolution Sample.os_up "/mnt" "vol1/sub/path"
              "vol1" ["sub"; "path"] [] Sample.metadata eq_refl eq_refl)
    as (d & st & Hnew & Hfirst).
  exists d, st. split; [exact Hnew|].
  assert (E : NewEFSDriver Sample.os_up "/mnt" "" true []
              = Some (Sample.resolving,
                      {| mountm := ∅; dnscache := ∅;
                         calls := [CallFetchAWSMetaData] |}))
    by reflexivity.
  rewrite E in Hnew. injection Hnew as <- <-.
  exists {| mountm := ∅;
            dnscache :=
              <[ "az1.vol1.efs.us-east-1.amazonaws.com" := "10.0.0.5" ]> ∅;
            calls := [CallLookupHost "az1.vol1.efs.us-east-1.amazonaws.com";
                      CallFetchAWSMetaData] |}.
  split; [reflexivity|].
  exact (proj1 (Hfirst "10.0.0.5:/"
                  {| mountm := ∅;
                     dnscache :=
                       <[ "az1.vol1.efs.us-east-1.amazonaws.com"
                          := "10.0.0.5" ]> ∅;
                     calls :=
                       [CallLookupHost "az1.vol1.efs.us-east-1.amazonaws.com";
                        CallFetchAWSMetaData] |} eq_refl)).
Defined.

(** X14: [Path] reports, in every store and without changing it, the
    mountpoint that [Mount] returns.  A [Mount] that returns has answered
    exactly as [Path] does when the count was positive or when directory
    creation and the physical mount both succeeded; otherwise its response
    is the error message of the step that failed. *)
Theorem Mount_answers_like_Path (os : Collaborators) (e : efsDriver)
    (r : Request) (st st' : Store) (resp : Response) :
  Mount os e r st = Some (resp, st') ->
  exists src st1,
    fixSource os e (Name r) st = Some (src, st1)
    /\ (((0 < Count (mountm st) (mountpoint os (root e) (Name r))
          \/ (createDest os (calls st1) (mountpoint os (root e) (Name r))
               = None
              /\ mountVolume os
                   (CallCreateDest (mountpoint os (root e) (Name r))
                    :: calls st1)
                   src (mountpoint os (root e) (Name r)) 4 = None))
         /\ forall st0 : Store, Path os e r st0 = Some (resp, st0))
        \/ (Count (mountm st) (mountpoint os (root e) (Name r)) <= 0
            /\ exists msg,
                 (createDest os (calls st1) (mountpoint os (root e) (Name r))
                    = Some msg
                  \/ (createDest os (calls st1)
                        (mountpoint os (root e) (Name r)) = None
                      /\ mountVolume os
                           (CallCreateDest (mountpoint os (root e) (Name r))
                            :: calls st1)
                           src (mountpoint os (root e) (Name r)) 4
                         = Some msg))
                 /\ resp = Response_err msg)).
Proof.
  intros H.
  destruct (Mount_inv os e r st st' resp H) as (src & st1 & Hf & Hcases).
  exists src, st1. split; [exact Hf|].
  destruct Hcases as [(Hc & -> & _)|[(Hc & msg & Hcd & -> & _)
                     |[(Hc & Hcd & msg & Hmv & -> & _)
                      |(_ & Hcd & Hmv & -> & _)]]].
  - left. split; [now left|reflexivity].
  - right. split; [exact Hc|]. exists msg. auto.
  - right. split; [exact Hc|]. exists msg. auto.
  - left. split; [now right|reflexivity].
Qed.

Lemma Mount_answers_like_Path_witness :
  Mount Sample.os_up Sample.literal {| Name := "server1/export" |} Sample.fresh
  = Some (Response_mountpoint "/mnt/server1/export",
          {| mountm := {[ "/mnt/server1/export" :=
                            {| volumeName := "server1/export";
                               refCount := 1 |} ]};
             dnscache := ∅;
             calls := [CallMountVolume "server1:/export"
                         "/mnt/server1/export" 4;
                       CallCreateDest "/mnt/server1/export"] |})
  /\ (forall st0 : Store,
        Path Sample.os_up Sample.literal {| Name := "server1/export" |} st0
        = Some (Response_mountpoint "/mnt/server1/export", st0)).
Proof.
  assert (H : Mount Sample.os_up Sample.literal
                {| Name := "server1/export" |} Sample.fresh
              = Some (Response_mountpoint "/mnt/server1/export",
                      {| mountm := {[ "/mnt/server1/export" :=
                                        {| volumeName := "server1/export";
                                           refCount := 1 |} ]};
                         dnscache := ∅;
                         calls := [CallMountVolume "server1:/export"
                                     "/mnt/server1/export" 4;
                                   CallCreateDest "/mnt/server1/export"] |}))
    by reflexivity.
  split; [exact H|].
  destruct (Mount_answers_like_Path Sample.os_up Sample.literal
              {| Name := "server1/export" |} _ _ _ H)
    as (src & st1 & _ & [[_ Hpath]|(_ & msg & [Hcd|[_ Hmv]] & _)]).
  - exact Hpath.
  - discriminate Hcd.
  - discriminate Hmv.
Defined.

Lemma bind_ret_store {A B : Type} (m : M A) (f : A -> B) (st : Store) :
  snd <$> bind m (fun a => ret (f a)) st = snd <$> m st.
Proof. unfold bind, ret. now destruct (m st) as [[a st1]|]. Qed.

Lemma handle_all_cons_store (os : Collaborators) (e : efsDriver)
    (q : PluginRequest) (qs : list PluginRequest) (st : Store) :
  snd <$> handle_all os e (q :: qs) st
  = match handle os e q st with
    | Some (_, st1) => snd <$> handle_all os e qs st1
    | None => None
    end.
Proof.
  cbn [handle_all]. unfold bind at 1.
  destruct (handle os e q st) as [[resp st1]|]; [|reflexivity].
  apply bind_ret_store.
Qed.

(** X15: [Create], [Remove] and [Path] change nothing.  Taking them out of
    any sequence of plugin requests leaves the final store, and whether the
    sequence panics, as they were: [Remove] does not unmount a volume or
    forget its consumers. *)
Theorem methods_that_do_not_mount (os : Collaborators) (e : efsDriver)
    (qs : list PluginRequest) (st : Store) :
  snd <$> handle_all os e qs st
  = snd <$> handle_all os e (List.filter changes_mounts qs) st.
Proof.
  revert st. induction qs as [|q qs IH]; intros st; [reflexivity|].
  rewrite handle_all_cons_store. cbn [List.filter].
  destruct (changes_mounts q) eqn:Hc.
  - rewrite handle_all_cons_store.
    destruct (handle os e q st) as [[resp st1]|]; [apply IH|reflexivity].
  - unfold changes_mounts in Hc. unfold handle.
    destruct (method q); try discriminate Hc; apply IH.
Qed.
